(** * CropDiseaseDetection: the Flask application and its detector

    A shallow embedding of [app.py] and [plant_disease_detector.py].

    - Request handlers are written in a state-and-exception monad over a
      [World] (upload directory, result table, loaded model, treatment
      cache); Python's [try ... except Exception] is [try_except].
    - Everything the process does not own (the clock, [uuid4], the
      werkzeug helpers, the image model, the database commit, the
      generative service) is an oracle collected in [Env].
    - The scores of the neural model are floats: a number, an infinity
      or NaN.  [torch]'s softmax is one of the oracles; how it rounds is
      not a matter for this file.  Feature ratios of the heuristic
      classifier are rationals, so that its thresholds compute. *)

From Stdlib Require Import ZArith QArith Ascii String DecimalString.
From stdpp Require Import base option list strings gmap sorting.

Open Scope string_scope.

(** ** Python exceptions and results *)

Module Py.

(** The exception classes that occur.  All of them derive from Python's
    [Exception]: werkzeug's [NotFound], [BadRequest] and
    [RequestEntityTooLarge] are [HTTPException]s, which are
    [Exception]s. *)
Inductive exn :=
| NotFound                        (* werkzeug.exceptions.NotFound, raised by abort(404) *)
| BadRequest                      (* werkzeug.exceptions.BadRequest: body is not JSON *)
| RequestEntityTooLarge           (* werkzeug.exceptions.RequestEntityTooLarge *)
| NameError (name : string)
| AttributeError (msg : string)
| OverflowError (msg : string)
| TypeError (msg : string)
| KeyError (key : string)
| IndexError (msg : string)
| RuntimeError (msg : string)     (* torch errors *)
| ExternalError (msg : string).   (* raised by the file system, database, model or service *)

Definition str (e : exn) : string :=
  match e with
  | NotFound =>
      "404 Not Found: The requested URL was not found on the server. If you entered the URL manually please check your spelling and try again."
  | BadRequest => "400 Bad Request: The browser (or proxy) sent a request that this server could not understand."
  | RequestEntityTooLarge => "413 Request Entity Too Large: The data value transmitted exceeds the capacity limit."
  | NameError n => "name '" ++ n ++ "' is not defined"
  | AttributeError m => m
  | OverflowError m => m
  | TypeError m => m
  | KeyError k => "'" ++ k ++ "'"
  | IndexError m => m
  | RuntimeError m => m
  | ExternalError m => m
  end.

Inductive result (A : Type) :=
| Ok (a : A)
| Raise (e : exn).
Arguments Ok {A} a.
Arguments Raise {A} e.

Definition rbind {A B} (r : result A) (k : A → result B) : result B :=
  match r with
  | Ok a => k a
  | Raise e => Raise e
  end.

End Py.

Import Py.

(** ** Strings *)

Definition is_dot (c : ascii) : bool := Ascii.eqb c "."%char.

(** [c.lower()] on one character; only A..Z change. *)
Definition lower_char (c : ascii) : ascii :=
  let n := nat_of_ascii c in
  if (65 <=? n)%nat && (n <=? 90)%nat then ascii_of_nat (n + 32) else c.

(** [s.lower()] on the bytes of the name.  Python lowers Unicode: outside
    ASCII only the Kelvin sign (to k) and the dotted capital I (to i and
    a combining dot) lower to something with an ASCII letter in it, and
    neither can yield one of the allowed extensions; so on the question
    "is the result an allowed extension" the two agree. *)
Fixpoint lower (s : string) : string :=
  match s with
  | EmptyString => EmptyString
  | String c t => String (lower_char c) (lower t)
  end.

(** ['.' in s] *)
Fixpoint contains_dot (s : string) : bool :=
  match s with
  | EmptyString => false
  | String c t => is_dot c || contains_dot t
  end.

(** [s.rsplit('.', 1)]: split once, at the last dot.  [None] stands for
    the one-element list Python returns when there is no dot. *)
Fixpoint rsplit_dot (s : string) : option (string * string) :=
  match s with
  | EmptyString => None
  | String c t =>
      match rsplit_dot t with
      | Some (pre, suf) => Some (String c pre, suf)
      | None => if is_dot c then Some (EmptyString, t) else None
      end
  end.

Definition ALLOWED_EXTENSIONS : list string := ["png"; "jpg"; "jpeg"; "gif"].

Definition str_in (s : string) (l : list string) : bool :=
  existsb (String.eqb s) l.

(** [allowed_file]: ['.' in filename and
    filename.rsplit('.', 1)[1].lower() in ALLOWED_EXTENSIONS]. *)
Definition allowed_file (filename : string) : bool :=
  contains_dot filename &&
  match rsplit_dot filename with
  | Some (_, ext) => str_in (lower ext) ALLOWED_EXTENSIONS
  | None => false   (* [1] on a one-element list; not reached, the dot test fails first *)
  end.

(** ** JSON values, as [request.json] and [json.load] return them

    Numbers are integers: a body or a file that holds a JSON float is
    not covered. *)

#[warnings="-register-all"]
Inductive json :=
| JNull
| JBool (b : bool)
| JNum (z : Z)
| JStr (s : string)
| JArr (l : list json)
| JObj (items : list (string * json)).   (* the items of the dict, keys distinct *)

(** [bool(data)], as tested by [not data]. *)
Definition truthy (data : json) : bool :=
  match data with
  | JNull => false
  | JBool b => b
  | JNum z => negb (z =? 0)%Z
  | JStr s => negb (String.eqb s "")
  | JArr l => match l with [] => false | _ => true end
  | JObj items => match items with [] => false | _ => true end
  end.

Fixpoint dict_get (key : string) (items : list (string * json)) : option json :=
  match items with
  | [] => None
  | (k, v) :: rest => if String.eqb k key then Some v else dict_get key rest
  end.

Definition is_str (key : string) (j : json) : bool :=
  match j with
  | JStr s => String.eqb s key
  | _ => false
  end.

Fixpoint is_substring (pat s : string) : bool :=
  String.prefix pat s ||
  match s with
  | EmptyString => false
  | String _ t => is_substring pat t
  end.

(** [key in data] for a string [key]: key test on a dict, element test on
    a list, substring test on a string, TypeError on the rest. *)
Definition py_in (key : string) (data : json) : result bool :=
  match data with
  | JObj items => Ok (bool_decide (is_Some (dict_get key items)))
  | JArr l => Ok (existsb (is_str key) l)
  | JStr s => Ok (is_substring key s)
  | JNum _ => Raise (TypeError "argument of type 'int' is not iterable")
  | JBool _ => Raise (TypeError "argument of type 'bool' is not iterable")
  | JNull => Raise (TypeError "argument of type 'NoneType' is not iterable")
  end.

(** [data[key]] for a string [key]. *)
Definition py_getitem (data : json) (key : string) : result json :=
  match data with
  | JObj items =>
      match dict_get key items with
      | Some v => Ok v
      | None => Raise (KeyError key)
      end
  | JArr _ => Raise (TypeError "list indices must be integers or slices, not str")
  | JStr _ => Raise (TypeError "string indices must be integers, not 'str'")
  | JNum _ => Raise (TypeError "'int' object is not subscriptable")
  | JBool _ => Raise (TypeError "'bool' object is not subscriptable")
  | JNull => Raise (TypeError "'NoneType' object is not subscriptable")
  end.

#[global] Instance result_ret : MRet result := @Ok.
#[global] Instance result_bind : MBind result := λ A B k r, rbind r k.

(** ** plant_disease_detector.py *)

(** [str(n)] for a non-negative integer. *)
Definition str_of_nat (n : nat) : string :=
  NilEmpty.string_of_uint (Nat.to_uint n).

(** *** Floats *)

(** A float as torch and Python hold it.  The numbers are rationals:
    every finite float is one, and two floats compare as their values
    do. *)
Inductive float :=
| Finite (q : Q)
| PosInf
| NegInf
| NaN.

Definition is_nan (x : float) : bool :=
  match x with
  | NaN => true
  | _ => false
  end.

(** [a > b] *)
Definition float_gt (a b : float) : bool :=
  match a, b with
  | NaN, _ | _, NaN => false
  | PosInf, PosInf => false
  | PosInf, _ => true
  | _, PosInf => false
  | NegInf, _ => false
  | Finite _, NegInf => true
  | Finite x, Finite y => negb (Qle_bool x y)
  end.

(** *** The model's output: arg-max and the class name *)

(** The comparison of torch's arg-max, for [a] at a later index than
    [b]: NaN wins over every number, a number wins when it is greater,
    and on equal values or two NaN the earlier index stays. *)
Definition greater_or_nan (a b : float) : bool :=
  if is_nan a then negb (is_nan b) else float_gt a b.

(** Scan for the winner: [best_i] is the index of the winner [best] so
    far, [i] the index of the head of [l]. *)
Fixpoint argmax_from (best_i : nat) (best : float) (i : nat) (l : list float) : nat :=
  match l with
  | [] => best_i
  | x :: t =>
      if greater_or_nan x best then argmax_from i x (S i) t
      else argmax_from best_i best (S i) t
  end.

(** [torch.argmax(row, dim=-1).item()]: the index of the first maximal
    value, or of the first NaN; an empty row is an error. *)
Definition argmax (row : list float) : result nat :=
  match row with
  | [] => Raise (IndexError "argmax(): Expected reduction dim -1 to have non-zero size.")
  | x :: t => Ok (argmax_from 0 x 1 t)
  end.

(** [row[i].item()] *)
Definition item_at (row : list float) (i : nat) : result float :=
  match row !! i with
  | Some x => Ok x
  | None => Raise (IndexError "index out of range")
  end.

(** [type(v).__name__] *)
Definition type_name (v : json) : string :=
  match v with
  | JNull => "NoneType"
  | JBool _ => "bool"
  | JNum _ => "int"
  | JStr _ => "str"
  | JArr _ => "list"
  | JObj _ => "dict"
  end.

(** [v.get(key, default)]: only a dict has the method. *)
Definition py_get (v : json) (key : string) (default_value : json) : result json :=
  match v with
  | JObj items => Ok (default default_value (dict_get key items))
  | _ => Raise (AttributeError ("'" ++ type_name v ++ "' object has no attribute 'get'"))
  end.

(** [config.get("id2label", {})] then
    [id2label.get(str(top_prediction), f"Class_{top_prediction}")], on
    the value that [json.load] gave for [config.json]. *)
Definition class_name (config : json) (top_prediction : nat) : result json :=
  id2label ← py_get config "id2label" (JObj []);
  py_get id2label (str_of_nat top_prediction) (JStr ("Class_" ++ str_of_nat top_prediction)).

(** The class names for the plant disease detection model. *)
Definition CLASSES : list string := [
  "Apple_Apple_scab"; "Apple_Black_rot"; "Apple_Cedar_apple_rust"; "Apple_Healthy";
  "Background_without_leaves"; "Blueberry_Healthy"; "Cherry_Powdery_mildew"; "Cherry_Healthy";
  "Corn_Cercospora_leaf_spot"; "Corn_Common_rust"; "Corn_Northern_Leaf_Blight"; "Corn_Healthy";
  "Grape_Black_rot"; "Grape_Esca"; "Grape_Leaf_blight"; "Grape_Healthy";
  "Orange_Haunglongbing"; "Peach_Bacterial_spot"; "Peach_Healthy";
  "Pepper_Bacterial_spot"; "Pepper_Healthy"; "Potato_Early_blight"; "Potato_Late_blight"; "Potato_Healthy";
  "Raspberry_Healthy"; "Soybean_Healthy"; "Squash_Powdery_mildew";
  "Strawberry_Leaf_scorch"; "Strawberry_Healthy"; "Tomato_Bacterial_spot"; "Tomato_Early_blight";
  "Tomato_Late_blight"; "Tomato_Leaf_Mold"; "Tomato_Septoria_leaf_spot";
  "Tomato_Spider_mites"; "Tomato_Target_Spot"; "Tomato_Mosaic_virus"; "Tomato_Yellow_Leaf_Curl_Virus"; "Tomato_Healthy"
].

(** *** The heuristic classifier *)

(** The names bound at module level in [plant_disease_detector.py]: its
    imports, its globals and its functions. *)
Definition module_globals : list string := [
  "os"; "cv2"; "np"; "torch"; "json"; "logging";
  "AutoImageProcessor"; "AutoModelForImageClassification"; "Image";
  "logger"; "MODEL_PATH"; "processor"; "model";
  "load_model"; "preprocess_image"; "detect_disease";
  "CLASSES"; "DISEASE_INDICATORS";
  "extract_color_features"; "extract_texture_features";
  "simple_disease_classifier"; "load_sample_predictions"
].

(** Looking up a global name at run time. *)
Definition global (name : string) : result unit :=
  if str_in name module_globals then Ok tt else Raise (NameError name).

(** What the [random] module would answer, were it reached. *)
Record Random := {
  random_random : Q;                 (* random.random(), in [0, 1) *)
  random_choice : list nat → nat;    (* random.choice(seq) *)
  random_randint : nat → nat → nat   (* random.randint(a, b) *)
}.

(** [a[i]] on a one-dimensional array. *)
Definition index (a : list Q) (i : nat) : result Q :=
  match a !! i with
  | Some x => Ok x
  | None =>
      Raise (IndexError ("index " ++ str_of_nat i ++ " is out of bounds for axis 0 with size "
                         ++ str_of_nat (List.length a)))
  end.

Definition gt (x y : Q) : bool := negb (Qle_bool x y).
Definition lt (x y : Q) : bool := negb (Qle_bool y x).

(** [np.mean(a)], as the exact mean; [None] is the nan of an empty
    array. *)
Definition np_mean (a : list Q) : option Q :=
  match a with
  | [] => None
  | _ => Some (fold_right Qplus 0%Q a / inject_Z (Z.of_nat (length a)))%Q
  end.

Definition healthy_indices : list nat := [3; 5; 7; 11; 15; 18; 20; 23; 24; 25; 28; 38]%nat.

Definition simple_disease_classifier (rng : Random) (features : list Q) : result nat :=
  let color_features := take 8 features in
  let texture_features := drop 8 features in
  (* High level of brown spots and high edge variation *)
  c0 ← index color_features 0;
  rule1 ← (if gt c0 (15 # 100) then t1 ← index texture_features 1; Ok (gt t1 (2 # 10))
           else Ok false);
  if (rule1 : bool) then
    _ ← global "random";
    Ok (if gt (random_random rng) (5 # 10) then 1 else 0)%nat
  else
  (* High yellow spots *)
  c1 ← index color_features 1;
  if gt c1 (2 # 10) then Ok 30%nat else
  (* White powdery appearance *)
  c3 ← index color_features 3;
  if gt c3 (1 # 10) then Ok 6%nat else
  (* Dark spots *)
  c2 ← index color_features 2;
  if gt c2 (12 # 100) then Ok 31%nat else
  (* Check if mostly green *)
  green ← (if from_option (λ m, lt m (1 # 10)) false (np_mean (take 5 color_features))
           then c5 ← index color_features 5; Ok (gt c5 (4 # 10))
           else Ok false);
  if (green : bool) then
    _ ← global "random";
    Ok (random_choice rng healthy_indices)
  else
    _ ← global "random";
    Ok (random_randint rng 0 (length CLASSES - 1)).

(** *** Colour features *)

(** A pixel of three 8-bit channels, and an image as its rows. *)
Definition pixel : Type := Z * Z * Z.
Definition image : Type := list (list pixel).

(** Common disease indicators and their colour ranges in HSV space, in
    the order the dict lists them. *)
Definition DISEASE_INDICATORS : list (string * (pixel * pixel)) := [
  ("Brown spots", ((10, 100, 20), (20, 255, 200)));
  ("Yellow spots", ((20, 100, 100), (30, 255, 255)));
  ("Black spots", ((0, 0, 0), (180, 255, 30)));
  ("White powder", ((0, 0, 200), (180, 30, 255)));
  ("Rotting", ((0, 50, 10), (15, 255, 100)))
]%Z.

(** One entry of the mask of [cv2.inRange(hsv, lower, upper)]: set when
    every channel lies between its bounds, both included. *)
Definition in_range (lower upper px : pixel) : bool :=
  let '(l0, l1, l2) := lower in
  let '(u0, u1, u2) := upper in
  let '(p0, p1, p2) := px in
  ((l0 <=? p0) && (p0 <=? u0) && (l1 <=? p1) && (p1 <=? u1) && (l2 <=? p2) && (p2 <=? u2))%Z.

(** [hsv[:, :, i]] flattened. *)
Definition channel (i : nat) (hsv : image) : list Q :=
  map (λ px : pixel,
         let '(p0, p1, p2) := px in
         inject_Z (match i with O => p0 | S O => p1 | _ => p2 end))
      (concat hsv).

(** [img.shape[0] * img.shape[1]] *)
Definition shape_product (img : image) : nat :=
  (List.length img * match img with [] => 0 | row :: _ => List.length row end)%nat.

(** A float division of numpy; [None] stands for the nan or inf of a
    zero divisor. *)
Definition np_divide (a b : Q) : option Q :=
  if Qeq_bool b 0 then None else Some (a / b)%Q.

(** [extract_color_features]: for each indicator the share of pixels in
    its range, then the mean of each HSV channel over 255.  The
    conversion [cv2.cvtColor(img, cv2.COLOR_RGB2HSV)] is handed in. *)
Definition extract_color_features (cvtColor : image → result image) (img : image)
  : result (list (option Q)) :=
  hsv ← cvtColor img;
  let ratios :=
    map (λ indicator : string * (pixel * pixel),
           let '(_, (lower, upper)) := indicator in
           let mask := map (in_range lower upper) (concat hsv) in
           np_divide (inject_Z (Z.of_nat (List.length (filter (λ m, m = true) mask))))
                     (inject_Z (Z.of_nat (shape_product img))))
        DISEASE_INDICATORS in
  let means :=
    map (λ i, m ← np_mean (channel i hsv); Some (m / 255)%Q) [0; 1; 2]%nat in
  Ok (ratios ++ means)%list.

(** *** Sample predictions *)

(** The files [load_sample_predictions] may look at. *)
Record Files := {
  read_json : string → option (result json);
    (* None: os.path.exists is False; Some (Raise e): open or json.load raises *)
  float_of_str : string → result float   (* float(s) for a string s *)
}.

(** [for item in results]: the elements of a list, the keys of a dict,
    the characters of a string. *)
Definition py_iter (data : json) : result (list json) :=
  match data with
  | JArr l => Ok l
  | JObj items => Ok (map (λ kv : string * json, JStr kv.1) items)
  | JStr s => Ok (map (λ c, JStr (String c EmptyString)) (list_ascii_of_string s))
  | JNum _ => Raise (TypeError "'int' object is not iterable")
  | JBool _ => Raise (TypeError "'bool' object is not iterable")
  | JNull => Raise (TypeError "'NoneType' object is not iterable")
  end.

(** The double nearest to a natural number: below [2^53] the number
    itself, above it the number rounded to its 53 leading bits, a tie
    going to the even neighbour. *)
Definition round_to_double (a : Z) : Z :=
  let bits := (Z.log2 a + 1)%Z in
  if (bits <=? 53)%Z then a
  else
    let shift := (bits - 53)%Z in
    let m := Z.shiftr a shift in
    let rest := Z.land a (Z.ones shift) in
    let half := Z.shiftl 1 (shift - 1) in
    let up := (half <? rest)%Z || ((rest =? half)%Z && Z.odd m) in
    Z.shiftl (if up then m + 1 else m)%Z shift.

(** [float(z)] for an [int]: a number that rounds to [2^1024] or more
    is too large for a double. *)
Definition float_of_int (z : Z) : result float :=
  let r := round_to_double (Z.abs z) in
  if (Z.shiftl 1 1024 <=? r)%Z then Raise (OverflowError "int too large to convert to float")
  else Ok (Finite (inject_Z (Z.sgn z * r))).

(** [float(v)] *)
Definition py_float (files : Files) (v : json) : result float :=
  match v with
  | JNum z => float_of_int z
  | JBool b => Ok (Finite (if b then 1 else 0))
  | JStr s => float_of_str files s
  | JNull => Raise (TypeError "float() argument must be a string or a real number, not 'NoneType'")
  | JArr _ => Raise (TypeError "float() argument must be a string or a real number, not 'list'")
  | JObj _ => Raise (TypeError "float() argument must be a string or a real number, not 'dict'")
  end.

(** The loop over the items of one file: an item with both keys adds a
    pair, any other item is skipped, and the first exception ends it. *)
Fixpoint load_items (files : Files) (items : list json) : result (list (json * float)) :=
  match items with
  | [] => Ok []
  | item :: rest =>
      has_prediction ← py_in "prediction" item;
      both ← (if (has_prediction : bool) then py_in "confidence" item else Ok false);
      entry ← (if (both : bool) then
                 prediction ← py_getitem item "prediction";
                 raw ← py_getitem item "confidence";
                 confidence ← py_float files raw;
                 Ok [(prediction, confidence)]
               else Ok []);
      more ← load_items files rest;
      Ok (entry ++ more)%list
  end.

(** The doubles that the literals of the source stand for. *)
Definition sample_defaults : list (json * float) := [
  (JStr "Apple_Scab", Finite (8142508126285857 # 9007199254740992));          (* 0.904 *)
  (JStr "Tomato_Late_blight", Finite (7710162562058289 # 9007199254740992));  (* 0.856 *)
  (JStr "Potato_Healthy", Finite (3314649325744685 # 4503599627370496));      (* 0.736 *)
  (JStr "Grape_Black_rot", Finite (8034421735228965 # 9007199254740992));     (* 0.892 *)
  (JStr "Corn_Common_rust", Finite (3679440895561695 # 4503599627370496))     (* 0.817 *)
].

Definition possible_locations : list string := [
  "attached_assets/detection_results.json";
  "static/data/detection_results.json";
  "detection_results.json"
].

(** The body of the [try] for one file that exists: [json.load], then
    the loop over its items. *)
Definition load_file (files : Files) (content : result json) : result (list (json * float)) :=
  results ← content;
  items ← py_iter results;
  load_items files items.

(** The loop over the locations: a file that is absent, that raises, or
    that yields no pair is passed over; the first file that yields pairs
    replaces the samples and ends the loop. *)
Fixpoint scan_locations (files : Files) (locations : list string)
    (sample_predictions : list (json * float)) : list (json * float) :=
  match locations with
  | [] => sample_predictions
  | detection_results_file :: rest =>
      match read_json files detection_results_file with
      | None => scan_locations files rest sample_predictions
      | Some content =>
          match load_file files content with
          | Ok [] => scan_locations files rest sample_predictions
          | Ok loaded_predictions => loaded_predictions            (* break *)
          | Raise _ => scan_locations files rest sample_predictions  (* logger.warning *)
          end
      end
  end.

Definition load_sample_predictions (files : Files) : list (json * float) :=
  scan_locations files possible_locations sample_defaults.

(** ** The process state and its environment *)

(** Modelled from the spec: [models.py] is not part of the sources; the
    row has the fields the spec's data model lists and that [upload_image]
    fills in, with the values that [upload_image] gives them.  The
    timestamp is a count of microseconds. *)
Module PlantDiseaseResult.
Record t := {
  id : Z;
  image_path : string;
  prediction : json;
  confidence : float;
  timestamp : Z
}.
End PlantDiseaseResult.

(** A key of the [lru_cache], for the hashable values of [json].
    [functools] keeps an [int] or a [str] argument as the key itself and
    wraps any other argument in a tuple, so an [int] never shares an
    entry with a [bool]. *)
Inductive key :=
| KNone
| KBool (b : bool)
| KInt (z : Z)
| KStr (s : string).

#[global] Instance key_eq_dec : EqDecision key.
Proof. solve_decision. Defined.

Record World := {
  uploads : gset string;                     (* paths of the files in static/uploads *)
  rows : list PlantDiseaseResult.t;          (* committed rows of the result table *)
  processor_loaded : bool;                   (* global processor is not None *)
  model_loaded : bool;                       (* global model is not None *)
  treatment_cache : list (key * string);     (* lru_cache of get_cached_treatment, most recent first *)
  service_calls : list json;                 (* arguments of the calls made to the treatment service *)
  session_id : option string                 (* session['session_id'] of the client's Flask session *)
}.

Definition set_uploads (f : gset string → gset string) (w : World) : World :=
  {| uploads := f (uploads w); rows := rows w;
     processor_loaded := processor_loaded w; model_loaded := model_loaded w;
     treatment_cache := treatment_cache w; service_calls := service_calls w;
     session_id := session_id w |}.

Definition set_rows (f : list PlantDiseaseResult.t → list PlantDiseaseResult.t) (w : World) : World :=
  {| uploads := uploads w; rows := f (rows w);
     processor_loaded := processor_loaded w; model_loaded := model_loaded w;
     treatment_cache := treatment_cache w; service_calls := service_calls w;
     session_id := session_id w |}.

Definition set_processor_loaded (b : bool) (w : World) : World :=
  {| uploads := uploads w; rows := rows w;
     processor_loaded := b; model_loaded := model_loaded w;
     treatment_cache := treatment_cache w; service_calls := service_calls w;
     session_id := session_id w |}.

Definition set_model_loaded (b : bool) (w : World) : World :=
  {| uploads := uploads w; rows := rows w;
     processor_loaded := processor_loaded w; model_loaded := b;
     treatment_cache := treatment_cache w; service_calls := service_calls w;
     session_id := session_id w |}.

Definition set_treatment_cache (c : list (key * string)) (w : World) : World :=
  {| uploads := uploads w; rows := rows w;
     processor_loaded := processor_loaded w; model_loaded := model_loaded w;
     treatment_cache := c; service_calls := service_calls w;
     session_id := session_id w |}.

Definition log_service_call (arg : json) (w : World) : World :=
  {| uploads := uploads w; rows := rows w;
     processor_loaded := processor_loaded w; model_loaded := model_loaded w;
     treatment_cache := treatment_cache w; service_calls := service_calls w ++ [arg];
     session_id := session_id w |}.

Definition set_session_id (s : option string) (w : World) : World :=
  {| uploads := uploads w; rows := rows w;
     processor_loaded := processor_loaded w; model_loaded := model_loaded w;
     treatment_cache := treatment_cache w; service_calls := service_calls w;
     session_id := s |}.

(** What the surroundings answer during one request. *)
Record Env := {
  secure_filename : string → string;           (* werkzeug.utils.secure_filename *)
  splitext : string → string * string;         (* os.path.splitext *)
  uuid4 : string;                              (* str(uuid.uuid4()) *)
  now : Z;                                     (* datetime.now() *)
  save_outcome : option (exn * bool);          (* file.save raises; was the file created all the same? *)
  load_processor : option exn;                 (* AutoImageProcessor.from_pretrained raises *)
  load_classifier : option exn;                (* AutoModelForImageClassification.from_pretrained raises *)
  run_model : string → result (list float);    (* preprocess_image(path), then the logits row of the model *)
  softmax : list float → list float;           (* torch.nn.functional.softmax(logits, dim=-1), on the row *)
  read_config : result json;                   (* json.load of MODEL_PATH/config.json *)
  commit_outcome : option exn;                 (* db.session.commit raises *)
  query_outcome : option exn;                  (* a query raises *)
  get_treatment_recommendation : nat → json → result string;
                                               (* gemini_service; the nat counts the earlier calls *)
  chat_with_gemini : json → json → result string   (* gemini_service *)
}.

(** ** State and exceptions *)

Definition M (A : Type) : Type := World → result A * World.

#[global] Instance M_ret : MRet M := λ A a w, (Ok a, w).
#[global] Instance M_bind : MBind M := λ A B k m w,
  match m w with
  | (Ok a, w') => k a w'
  | (Raise e, w') => (Raise e, w')
  end.

Definition raise {A} (e : exn) : M A := λ w, (Raise e, w).
Definition lift {A} (r : result A) : M A := λ w, (r, w).
Definition gets {A} (f : World → A) : M A := λ w, (Ok (f w), w).
Definition modify (f : World → World) : M unit := λ w, (Ok tt, f w).

(** [try: body / except Exception as e: handler]: every class of [exn]
    is an [Exception], and what [body] did before raising stays done. *)
Definition try_except {A} (body : M A) (handler : exn → M A) : M A := λ w,
  match body w with
  | (Ok a, w') => (Ok a, w')
  | (Raise e, w') => handler e w'
  end.

(** ** The detector's entry point *)

Definition load_model (env : Env) : M unit := λ w,
  if negb (processor_loaded w) || negb (model_loaded w) then
    match load_processor env with
    | Some e => (Raise e, w)
    | None =>
        let w1 := set_processor_loaded true w in
        match load_classifier env with
        | Some e => (Raise e, w1)
        | None => (Ok tt, set_model_loaded true w1)
        end
    end
  else (Ok tt, w).

Definition detect_disease (env : Env) (image_path : string) : M (json * float) :=
  _ ← load_model env;
  logits ← lift (run_model env image_path);
  let probabilities := softmax env logits in
  top_prediction ← lift (argmax probabilities);
  confidence ← lift (item_at probabilities top_prediction);
  config ← lift (read_config env);
  predicted_class ← lift (class_name config top_prediction);
  mret (predicted_class, confidence).

(** ** app.py *)

Definition UPLOAD_FOLDER : string := "static/uploads".

(** The uploaded part [request.files['file']]. *)
Record FileStorage := { filename : string }.

(** A POST to [/api/upload]: the length of its body and the part named
    [file] of its form, if it has one. *)
Record Request := {
  content_length : Z;
  files_file : option FileStorage
}.

(** [app.config["MAX_CONTENT_LENGTH"]] *)
Definition MAX_CONTENT_LENGTH : Z := 16 * 1024 * 1024.

(** What a handler hands back to Flask: a body and a status. *)
Inductive body :=
| ErrorBody (msg : string)                          (* jsonify({'error': msg}) *)
| UploadBody (id : Z) (image_path : string) (prediction : json) (confidence : float)
    (timestamp : Z)
| TreatmentBody (treatment : string)                (* jsonify({'treatment': ...}) *)
| ResultsBody (results : list PlantDiseaseResult.t) (* jsonify([r.to_dict() for r in results]) *)
| ResultBody (r : PlantDiseaseResult.t)             (* jsonify(result.to_dict()) *)
| ChatBody (response : string) (sid : json)         (* jsonify({'response': ..., 'session_id': ...}) *)
| Template (name : string) (results : list PlantDiseaseResult.t)
| Redirect (endpoint flashed : string).

Definition response : Type := body * nat.

(** *** Files *)

Definition file_save (env : Env) (path : string) : M unit := λ w,
  match save_outcome env with
  | None => (Ok tt, set_uploads (λ s, {[path]} ∪ s) w)
  | Some (e, created) =>
      (Raise e, if created then set_uploads (λ s, {[path]} ∪ s) w else w)
  end.

Definition os_path_exists (path : string) : M bool :=
  gets (λ w, bool_decide (path ∈ uploads w)).

Definition os_remove (path : string) : M unit :=
  modify (set_uploads (λ s, s ∖ {[path]})).

(** *** The result table *)

(** The primary key the database gives to a new row. *)
Definition next_id (table : list PlantDiseaseResult.t) : Z :=
  1 + foldr (λ r m, Z.max (PlantDiseaseResult.id r) m) 0%Z table.

(** [db.session.add(result); db.session.commit()]: a failed commit
    leaves the table as it was. *)
Definition db_session_commit (env : Env) (pending : Z → PlantDiseaseResult.t)
  : M PlantDiseaseResult.t := λ w,
  match commit_outcome env with
  | Some e => (Raise e, w)
  | None =>
      let result := pending (next_id (rows w)) in
      (Ok result, set_rows (λ table, (table ++ [result])%list) w)
  end.

Fixpoint insert_desc (r : PlantDiseaseResult.t) (sorted : list PlantDiseaseResult.t)
  : list PlantDiseaseResult.t :=
  match sorted with
  | [] => [r]
  | x :: rest =>
      if (PlantDiseaseResult.timestamp x <=? PlantDiseaseResult.timestamp r)%Z
      then r :: sorted
      else x :: insert_desc r rest
  end.

(** [order_by(PlantDiseaseResult.timestamp.desc())].  SQL leaves the
    order of rows with equal timestamps open; SQLite, the database of
    the default configuration, lists them in table order, and so does
    this sort. *)
Definition order_by_timestamp_desc (table : list PlantDiseaseResult.t)
  : list PlantDiseaseResult.t :=
  foldr insert_desc [] table.

(** [PlantDiseaseResult.query.order_by(...).limit(20).all()] *)
Definition query_latest (env : Env) : M (list PlantDiseaseResult.t) := λ w,
  match query_outcome env with
  | Some e => (Raise e, w)
  | None => (Ok (take 20 (order_by_timestamp_desc (rows w))), w)
  end.

(** [PlantDiseaseResult.query.get_or_404(result_id)] *)
Definition get_or_404 (env : Env) (result_id : Z) : M PlantDiseaseResult.t := λ w,
  match query_outcome env with
  | Some e => (Raise e, w)
  | None =>
      match List.find (λ r, (PlantDiseaseResult.id r =? result_id)%Z) (rows w) with
      | Some r => (Ok r, w)
      | None => (Raise NotFound, w)       (* abort(404) *)
      end
  end.

(** *** The memoized treatment lookup *)

Definition maxsize : nat := 100.

(** Hashing the argument: lists and dicts are unhashable. *)
Definition make_key (arg : json) : result key :=
  match arg with
  | JNull => Ok KNone
  | JBool b => Ok (KBool b)
  | JNum z => Ok (KInt z)
  | JStr s => Ok (KStr s)
  | JArr _ => Raise (TypeError "unhashable type: 'list'")
  | JObj _ => Raise (TypeError "unhashable type: 'dict'")
  end.

Fixpoint cache_get (k : key) (cache : list (key * string)) : option string :=
  match cache with
  | [] => None
  | (k', v) :: rest => if decide (k' = k) then Some v else cache_get k rest
  end.

Fixpoint cache_remove (k : key) (cache : list (key * string)) : list (key * string) :=
  match cache with
  | [] => []
  | (k', v) :: rest => if decide (k' = k) then rest else (k', v) :: cache_remove k rest
  end.

(** Storing a new entry at the front; a full cache first drops its
    last, least recently used, entry. *)
Definition cache_store (k : key) (text : string) (cache : list (key * string))
  : list (key * string) :=
  (k, text) :: (if (maxsize <=? List.length cache)%nat then removelast cache else cache).
Arguments cache_store : simpl never.

(** [@lru_cache(maxsize=100) def get_cached_treatment(disease_name)]:
    a hit moves the entry to the front; a miss calls the service and, when
    it returns, stores the text, dropping the least recently used entry of
    a full cache.  When the service raises nothing is stored. *)
Definition get_cached_treatment (env : Env) (disease_name : json) : M string :=
  k ← lift (make_key disease_name);
  cache ← gets treatment_cache;
  match cache_get k cache with
  | Some text =>
      _ ← modify (set_treatment_cache ((k, text) :: cache_remove k cache));
      mret text
  | None =>
      n ← gets (λ w, length (service_calls w));
      _ ← modify (log_service_call disease_name);
      text ← lift (get_treatment_recommendation env n disease_name);
      _ ← modify (set_treatment_cache (cache_store k text cache));
      mret text
  end.

(** *** The routes *)

(** [not data or key not in data] *)
Definition field_missing (key : string) (data : json) : result bool :=
  if negb (truthy data) then Ok true
  else present ← py_in key data; Ok (negb present).

Definition history (env : Env) : M response :=
  try_except
    (results ← query_latest env;
     mret (Template "history.html" results, 200%nat))
    (λ e, mret (Redirect "index" "Error loading history. Please try again later.", 302%nat)).

Definition upload_image (env : Env) (file_part : option FileStorage) : M response :=
  match file_part with
  | None => mret (ErrorBody "No file part", 400%nat)
  | Some file =>
      if String.eqb (filename file) "" then mret (ErrorBody "No selected file", 400%nat)
      else if negb (allowed_file (filename file)) then mret (ErrorBody "File type not allowed", 400%nat)
      else
        (* the names are computed first inside the try block; none of these steps raises *)
        let secured := secure_filename env (filename file) in
        let file_extension := (splitext env secured).2 in
        let unique_filename := uuid4 env ++ file_extension in
        let file_path := UPLOAD_FOLDER ++ "/" ++ unique_filename in
        try_except
          (_ ← file_save env file_path;
           detected ← detect_disease env file_path;
           let '(prediction, confidence) := detected in
           result ← db_session_commit env (λ i,
             {| PlantDiseaseResult.id := i;
                PlantDiseaseResult.image_path := file_path;
                PlantDiseaseResult.prediction := prediction;
                PlantDiseaseResult.confidence := confidence;
                PlantDiseaseResult.timestamp := now env |});
           mret (UploadBody (PlantDiseaseResult.id result) file_path prediction confidence
                            (PlantDiseaseResult.timestamp result), 200%nat))
          (λ e,
           saved ← os_path_exists file_path;
           _ ← (if (saved : bool) then os_remove file_path else mret tt);
           mret (ErrorBody (str e), 500%nat))
  end.

(** Reading [request.files] parses the form: Flask refuses a body longer
    than [MAX_CONTENT_LENGTH]. *)
Definition request_files (request : Request) : result (option FileStorage) :=
  if (MAX_CONTENT_LENGTH <? content_length request)%Z then Raise RequestEntityTooLarge
  else Ok (files_file request).

(** The route [/api/upload] on a request: [request.files] is first read
    by the test of line 94, outside the [try]. *)
Definition post_upload (env : Env) (request : Request) : M response :=
  file_part ← lift (request_files request);
  upload_image env file_part.

(** The status of the answer that Flask sends: the one the handler gave,
    or the one of the exception that left it, an [HTTPException] having
    its own code and any other exception giving 500. *)
Definition http_status (outcome : result response) : nat :=
  match outcome with
  | Ok (_, status) => status
  | Raise NotFound => 404
  | Raise BadRequest => 400
  | Raise RequestEntityTooLarge => 413
  | Raise _ => 500
  end.

(** The [file_path] that [upload_image] computes for an upload. *)
Definition upload_path (env : Env) (file : FileStorage) : string :=
  UPLOAD_FOLDER ++ "/" ++ uuid4 env ++ (splitext env (secure_filename env (filename file))).2.

Definition get_treatment (env : Env) (request_json : result json) : M response :=
  try_except
    (data ← lift request_json;
     missing ← lift (field_missing "disease" data);
     if (missing : bool) then mret (ErrorBody "Disease name is required", 400%nat)
     else
       disease_name ← lift (py_getitem data "disease");
       treatment ← get_cached_treatment env disease_name;
       mret (TreatmentBody treatment, 200%nat))
    (λ e, mret (ErrorBody (str e), 500%nat)).

Definition get_results (env : Env) : M response :=
  try_except
    (results ← query_latest env;
     mret (ResultsBody results, 200%nat))
    (λ e, mret (ErrorBody (str e), 500%nat)).

(** The route [/api/result/<int:result_id>]; the converter of the route
    lets only a non-negative integer through. *)
Definition get_result (env : Env) (result_id : Z) : M response :=
  try_except
    (result ← get_or_404 env result_id;
     mret (ResultBody result, 200%nat))
    (λ e, mret (ErrorBody (str e), 500%nat)).

Definition handle_chat (env : Env) (request_json : result json) : M response :=
  try_except
    (data ← lift request_json;
     missing ← lift (field_missing "message" data);
     if (missing : bool) then mret (ErrorBody "Message is required", 400%nat)
     else
       user_message ← lift (py_getitem data "message");
       (* Get or create a session ID for this chat *)
       held ← gets session_id;
       _ ← (if held is None then modify (set_session_id (Some (uuid4 env))) else mret tt);
       held ← gets session_id;
       own ← lift (from_option Ok (Raise (KeyError "session_id")) held);
       (* Also allow overriding the session ID from the request *)
       override ← lift (py_in "session_id" data);
       sid ← (if (override : bool) then lift (py_getitem data "session_id") else mret (JStr own));
       reply ← lift (chat_with_gemini env sid user_message);
       mret (ChatBody reply sid, 200%nat))
    (λ e, mret (ErrorBody (str e), 500%nat)).

(** [PlantDiseaseResult.query.filter_by(id=disease_id).first()]: the id
    arrives as the text of the URL parameter; [as_key] is how the
    database reads that text as a key ([None]: it equals no key). *)
Definition filter_by_id_first (env : Env) (as_key : string → option Z) (disease_id : string)
  : M (option PlantDiseaseResult.t) := λ w,
  match query_outcome env with
  | Some e => (Raise e, w)
  | None =>
      (Ok (key ← as_key disease_id;
           List.find (λ r, (PlantDiseaseResult.id r =? key)%Z) (rows w)), w)
  end.

(** The route [/chat]; the template gets the stored result as a list of
    no row or one row. *)
Definition chat (env : Env) (as_key : string → option Z) (disease_id : option string)
  : M response :=
  try_except
    (match disease_id with
     | Some text =>
         if negb (String.eqb text "") then
           disease_result ← filter_by_id_first env as_key text;
           match disease_result with
           | None => mret (Redirect "index" "Disease result not found.", 302%nat)
           | Some r => mret (Template "chat.html" [r], 200%nat)
           end
         else mret (Template "chat.html" [], 200%nat)
     | None => mret (Template "chat.html" [], 200%nat)
     end)
    (λ e, mret (Redirect "index" "Error loading chat. Please try again later.", 302%nat)).

(** ** Shorthands and orders on rows *)

Abbreviation ts := PlantDiseaseResult.timestamp.

(** newest first, equal timestamps allowed *)
Definition descending (a b : PlantDiseaseResult.t) : Prop := (ts b ≤ ts a)%Z.

(** newest first, no two timestamps equal *)
Definition strictly_descending (a b : PlantDiseaseResult.t) : Prop := (ts b < ts a)%Z.
Abbreviation prediction_of := PlantDiseaseResult.prediction.
Abbreviation confidence_of := PlantDiseaseResult.confidence.
Abbreviation calls := service_calls.
Abbreviation cache := treatment_cache.

(** The row that an upload stores: the detector's answer for the saved
    file, stamped with the clock, under the next key of the table. *)
Definition stored_row (env : Env) (file : FileStorage) (w : World)
    (prediction : json) (confidence : float) : PlantDiseaseResult.t :=
  {| PlantDiseaseResult.id := next_id (rows w);
     PlantDiseaseResult.image_path := upload_path env file;
     PlantDiseaseResult.prediction := prediction;
     PlantDiseaseResult.confidence := confidence;
     PlantDiseaseResult.timestamp := now env |}.

(** The keys of the table. *)
Definition ids (table : list PlantDiseaseResult.t) : list Z :=
  map PlantDiseaseResult.id table.

(** ** Sample surroundings, used to run the handlers *)

Definition sample_splitext (s : string) : string * string :=
  match rsplit_dot s with
  | Some (root, ext) => (root, "." ++ ext)
  | None => (s, "")
  end.

Definition sample_labels : list (string * json) :=
  [("0", JStr "Apple_Apple_scab"); ("1", JStr "Apple_Black_rot")].

Definition sample_config : json :=
  JObj [("model_type", JStr "vit"); ("id2label", JObj sample_labels)].

(** Everything works: one class with logit 0, whose score is 1, and a
    service that answers. *)
Definition env_ok : Env := {|
  secure_filename := λ s, s;
  splitext := sample_splitext;
  uuid4 := "0b0e7a3c-3a5e-4c58-9d1e-6f1e2a7b9c10";
  now := 1700000000000000;
  save_outcome := None;
  load_processor := None;
  load_classifier := None;
  run_model := λ _, Ok [Finite 0];
  softmax := λ _, [Finite 1];
  read_config := Ok sample_config;
  commit_outcome := None;
  query_outcome := None;
  get_treatment_recommendation := λ _ _, Ok "Remove and destroy infected leaves.";
  chat_with_gemini := λ _ _, Ok "Hello, how can I help?"
|}.

(** [env_ok] with another model, config, commit and services. *)
Definition env_with (run : string → result (list float)) (scores : list float → list float)
    (config : result json) (commit : option exn) (service : nat → json → result string)
    (chat : json → json → result string) : Env := {|
  secure_filename := secure_filename env_ok;
  splitext := splitext env_ok;
  uuid4 := uuid4 env_ok;
  now := now env_ok;
  save_outcome := None;
  load_processor := None;
  load_classifier := None;
  run_model := run;
  softmax := scores;
  read_config := config;
  commit_outcome := commit;
  query_outcome := None;
  get_treatment_recommendation := service;
  chat_with_gemini := chat
|}.

(** The treatment service is down at the first call and answers from
    the second call on. *)
Definition env_flaky : Env :=
  env_with (run_model env_ok) (softmax env_ok) (read_config env_ok) None
           (λ n _, match n with
                   | O => Raise (ExternalError "503 Service Unavailable")
                   | S _ => Ok "Remove and destroy infected leaves."
                   end)
           (chat_with_gemini env_ok).

(** The chat service raises. *)
Definition env_chat_down : Env :=
  env_with (run_model env_ok) (softmax env_ok) (read_config env_ok) None
           (get_treatment_recommendation env_ok)
           (λ _ _, Raise (ExternalError "504 Deadline Exceeded")).

(** The body [{"disease": label}] of a treatment request. *)
Definition treatment_request (label : string) : result json :=
  Ok (JObj [("disease", JStr label)]).

Definition world0 : World := {|
  uploads := ∅;
  rows := [];
  processor_loaded := false;
  model_loaded := false;
  treatment_cache := [];
  service_calls := [];
  session_id := None
|}.

Definition leaf_png : FileStorage := {| filename := "leaf.PNG" |}.
Definition leaf_path : string :=
  "static/uploads/0b0e7a3c-3a5e-4c58-9d1e-6f1e2a7b9c10.PNG".

(** A model with two classes that rules the first one out: the logits
    are minus infinity and 0, the scores 0 and 1. *)
Definition env_two_classes : Env :=
  env_with (λ _, Ok [NegInf; Finite 0]) (λ _, [Finite 0; Finite 1]) (read_config env_ok) None
           (get_treatment_recommendation env_ok) (chat_with_gemini env_ok).

(** A model with two classes whose logits are 0 and the float nearest
    to 1e-10: the second logit is the larger one, and both scores are
    one half. *)
Definition env_near_tie : Env :=
  env_with (λ _, Ok [Finite 0; Finite (14411519 # 144115188075855872)])
           (λ _, [Finite (1 # 2); Finite (1 # 2)]) (read_config env_ok) None
           (get_treatment_recommendation env_ok) (chat_with_gemini env_ok).

(** A model whose logits are not numbers, and so neither are its
    scores. *)
Definition env_nan : Env :=
  env_with (λ _, Ok [NaN; NaN]) (λ _, [NaN; NaN]) (read_config env_ok) None
           (get_treatment_recommendation env_ok) (chat_with_gemini env_ok).


(** A model whose config has [null] for the label-index mapping. *)
Definition env_null_labels : Env :=
  env_with (run_model env_ok) (softmax env_ok) (Ok (JObj [("id2label", JNull)])) None
           (get_treatment_recommendation env_ok) (chat_with_gemini env_ok).

(** A third upload, one microsecond after the two of
    [world_two_uploads]. *)
Definition env_third : Env := {|
  secure_filename := secure_filename env_ok;
  splitext := splitext env_ok;
  uuid4 := "16fd2706-8baf-433b-82eb-8c7fada847da";
  now := now env_ok + 1;
  save_outcome := None;
  load_processor := None;
  load_classifier := None;
  run_model := run_model env_ok;
  softmax := softmax env_ok;
  read_config := read_config env_ok;
  commit_outcome := None;
  query_outcome := None;
  get_treatment_recommendation := get_treatment_recommendation env_ok;
  chat_with_gemini := chat_with_gemini env_ok
|}.

(** An upload of 17 MB, and one of 1 MB, of a text file. *)
Definition notes_txt : FileStorage := {| filename := "notes.txt" |}.
Definition request_17mb : Request :=
  {| content_length := 17 * 1024 * 1024; files_file := Some notes_txt |}.
Definition request_1mb : Request :=
  {| content_length := 1024 * 1024; files_file := Some notes_txt |}.


(** Two uploads that read the same clock value. *)
Definition env_second : Env := {|
  secure_filename := secure_filename env_ok;
  splitext := splitext env_ok;
  uuid4 := "7c9e6679-7425-40de-944b-e07fc1f90ae7";
  now := now env_ok;
  save_outcome := None;
  load_processor := None;
  load_classifier := None;
  run_model := run_model env_ok;
  softmax := softmax env_ok;
  read_config := read_config env_ok;
  commit_outcome := None;
  query_outcome := None;
  get_treatment_recommendation := get_treatment_recommendation env_ok;
  chat_with_gemini := chat_with_gemini env_ok
|}.

Definition world_two_uploads : World :=
  (upload_image env_second (Some leaf_png)
     (upload_image env_ok (Some leaf_png) world0).2).2.

(** The world after a third upload, stamped later than the two
    before it. *)
Definition world_three_uploads : World :=
  (upload_image env_third (Some leaf_png) world_two_uploads).2.

(** Feature vectors for the heuristic classifier: eight colour features,
    then three texture features. *)
Definition no_symptoms : list Q := replicate 11 0%Q.

(** brown spots 0.5 and edge variation 0.5: the first rule matches *)
Definition brown_and_rough : list Q :=
  [5 # 10; 0; 0; 0; 0; 0; 0; 0; 0; 5 # 10; 0]%Q.

(** no indicator, sixth colour feature 0.5: the mostly-green test matches *)
Definition mostly_green : list Q :=
  [0; 0; 0; 0; 0; 5 # 10; 0; 0; 0; 0; 0]%Q.

(** The disk is full: [file.save] raises after creating the file. *)
Definition env_disk_full : Env := {|
  secure_filename := secure_filename env_ok;
  splitext := splitext env_ok;
  uuid4 := uuid4 env_ok;
  now := now env_ok;
  save_outcome := Some (ExternalError "[Errno 28] No space left on device", true);
  load_processor := None;
  load_classifier := None;
  run_model := run_model env_ok;
  softmax := softmax env_ok;
  read_config := read_config env_ok;
  commit_outcome := None;
  query_outcome := None;
  get_treatment_recommendation := get_treatment_recommendation env_ok;
  chat_with_gemini := chat_with_gemini env_ok
|}.

(** The database is unreachable: every query raises. *)
Definition env_db_down : Env := {|
  secure_filename := secure_filename env_ok;
  splitext := splitext env_ok;
  uuid4 := uuid4 env_ok;
  now := now env_ok;
  save_outcome := None;
  load_processor := None;
  load_classifier := None;
  run_model := run_model env_ok;
  softmax := softmax env_ok;
  read_config := read_config env_ok;
  commit_outcome := None;
  query_outcome := Some (ExternalError "(sqlite3.OperationalError) unable to open database file");
  get_treatment_recommendation := get_treatment_recommendation env_ok;
  chat_with_gemini := chat_with_gemini env_ok
|}.

(** The world after one upload of [leaf_png] under [env_ok]. *)
Definition world_one_upload : World :=
  (upload_image env_ok (Some leaf_png) world0).2.

(** The keys of the cache, most recently used first. *)
Definition cached_keys (c : list (key * string)) : list key := map fst c.

(** A cache filled to its size: the labels [n], [n-1], ..., 1 as
    integers, each with the text of its number. *)
Fixpoint numbered_cache (n : nat) : list (key * string) :=
  match n with
  | O => []
  | S m => (KInt (Z.of_nat n), str_of_nat n) :: numbered_cache m
  end.

Definition world_full_cache : World := set_treatment_cache (numbered_cache 100) world0.

(** The world after one treatment request for [Apple_Black_rot]. *)
Definition world_one_treatment : World :=
  (get_treatment env_ok (treatment_request "Apple_Black_rot") world0).2.

(** A reading of the text of a URL parameter as a key, for a text of
    decimal digits; what the database makes of another text is left to
    the caller of [chat]. *)
Definition decimal_key (text : string) : option Z :=
  match NilEmpty.uint_of_string text with
  | Some d => Some (Z.of_uint d)
  | None => None
  end.

(** The image processor loads, the classifier does not. *)
Definition env_no_classifier : Env := {|
  secure_filename := secure_filename env_ok;
  splitext := splitext env_ok;
  uuid4 := uuid4 env_ok;
  now := now env_ok;
  save_outcome := None;
  load_processor := None;
  load_classifier := Some (ExternalError "D:/project3 does not appear to have a file named config.json");
  run_model := run_model env_ok;
  softmax := softmax env_ok;
  read_config := read_config env_ok;
  commit_outcome := None;
  query_outcome := None;
  get_treatment_recommendation := get_treatment_recommendation env_ok;
  chat_with_gemini := chat_with_gemini env_ok
|}.

(** Nothing loads. *)
Definition env_no_processor : Env := {|
  secure_filename := secure_filename env_ok;
  splitext := splitext env_ok;
  uuid4 := uuid4 env_ok;
  now := now env_ok;
  save_outcome := None;
  load_processor := Some (ExternalError "Can't load image processor for 'D:/project3'");
  load_classifier := Some (ExternalError "D:/project3 does not appear to have a file named config.json");
  run_model := run_model env_ok;
  softmax := softmax env_ok;
  read_config := read_config env_ok;
  commit_outcome := None;
  query_outcome := None;
  get_treatment_recommendation := get_treatment_recommendation env_ok;
  chat_with_gemini := chat_with_gemini env_ok
|}.

(** yellow spots 0.3 and nothing else: the second rule matches *)
Definition yellow_spots : list Q :=
  [0; 3 # 10; 0; 0; 0; 0; 0; 0; 0; 0; 0]%Q.

(** A pixel whose three channels are 8-bit values. *)
Definition uint8_pixel (px : pixel) : Prop :=
  let '(p0, p1, p2) := px in
  (0 ≤ p0 ≤ 255 ∧ 0 ≤ p1 ≤ 255 ∧ 0 ≤ p2 ≤ 255)%Z.

(** A location that [load_sample_predictions] passes over: no file, a
    file that raises, or a file that yields no pair. *)
Definition passed_over (files : Files) (location : string) : Prop :=
  match read_json files location with
  | None => True
  | Some content =>
      load_file files content = Ok [] ∨ ∃ e, load_file files content = Raise e
  end.

(** One green pixel, and its conversion to HSV. *)
Definition green_pixel : image := [[(0, 128, 0)%Z]].
Definition green_pixel_hsv : image := [[(60, 255, 128)%Z]].

(** Only the second location holds a file; its first item lacks a
    confidence. *)
Definition files_second_only : Files := {|
  read_json := λ location,
    if String.eqb location "static/data/detection_results.json" then
      Some (Ok (JArr [ JObj [("prediction", JStr "Tomato_Healthy")];
                       JObj [("prediction", JStr "Corn_Common_rust"); ("confidence", JNum 1)] ]))
    else None;
  float_of_str := λ _, Raise (ExternalError "could not convert string to float")
|}.

(** Only the third location holds a file; the confidence of its second
    item is null. *)
Definition files_null_confidence : Files := {|
  read_json := λ location,
    if String.eqb location "detection_results.json" then
      Some (Ok (JArr [ JObj [("prediction", JStr "Corn_Common_rust"); ("confidence", JNum 1)];
                       JObj [("prediction", JStr "Tomato_Healthy"); ("confidence", JNull)] ]))
    else None;
  float_of_str := λ _, Raise (ExternalError "could not convert string to float")
|}.

(** Only the first location holds a file; the confidence of its item
    is the integer [10 ** 400]. *)
Definition files_huge_confidence : Files := {|
  read_json := λ location,
    if String.eqb location "attached_assets/detection_results.json" then
      Some (Ok (JArr [ JObj [("prediction", JStr "Corn_Common_rust");
                             ("confidence", JNum (10 ^ 400))] ]))
    else None;
  float_of_str := λ _, Raise (ExternalError "could not convert string to float")
|}.

(** * Properties *)

(** ** File names *)

Example allowed_file_upper : allowed_file "leaf.PNG" = true.
Proof. reflexivity. Qed.

Example allowed_file_last_dot : allowed_file "leaf.png.exe" = false.
Proof. reflexivity. Qed.

Example allowed_file_no_dot : allowed_file "png" = false.
Proof. reflexivity. Qed.

Lemma rsplit_dot_none (s : string) :
  rsplit_dot s = None ↔ contains_dot s = false.
Proof.
  induction s as [|c t IH]; simpl; [done|].
  destruct (rsplit_dot t) as [[pre suf]|], (is_dot c); simpl; split; try done.
  - intros Hc. apply IH in Hc. done.
  - intros _. by apply IH.
Qed.

Lemma append_empty (s : string) : "" +:+ s = s.
Proof. reflexivity. Qed.

Lemma append_String (c : ascii) (s t : string) : String c s +:+ t = String c (s +:+ t).
Proof. reflexivity. Qed.

Lemma contains_dot_append (pre suf : string) :
  contains_dot (pre +:+ "." +:+ suf) = true.
Proof.
  induction pre as [|c u IH].
  - reflexivity.
  - rewrite append_String. simpl. rewrite IH. apply orb_true_r.
Qed.

Lemma rsplit_dot_some (s pre suf : string) :
  rsplit_dot s = Some (pre, suf) ↔ s = pre +:+ "." +:+ suf ∧ contains_dot suf = false.
Proof.
  revert pre. induction s as [|c t IH]; intros pre; simpl.
  - split; [done|]. intros [H _]. by destruct pre.
  - destruct (rsplit_dot t) as [[p' s']|] eqn:Ht.
    + split.
      * intros [= <- <-]. destruct (IH p') as [IH1 _].
        destruct (IH1 eq_refl) as [-> Hs]. done.
      * intros [H Hs]. destruct pre as [|c' pre'].
        -- rewrite append_empty, append_String, append_empty in H.
           injection H as -> ->.
           apply rsplit_dot_none in Hs. congruence.
        -- rewrite append_String in H. injection H as -> Ht'.
           destruct (IH pre') as [_ IH2]. specialize (IH2 (conj Ht' Hs)).
           congruence.
    + apply rsplit_dot_none in Ht. split.
      * destruct (is_dot c) eqn:Hc; [|done].
        apply Ascii.eqb_eq in Hc. subst c. intros [= <- <-]. done.
      * intros [H Hs]. destruct pre as [|c' pre'].
        -- rewrite append_empty, append_String, append_empty in H.
           injection H as -> ->. done.
        -- rewrite append_String in H. injection H as -> ->.
           by rewrite contains_dot_append in Ht.
Qed.

Lemma str_in_elem (s : string) (l : list string) : str_in s l = true ↔ s ∈ l.
Proof.
  unfold str_in. rewrite existsb_exists, list_elem_of_In. split.
  - intros (x & Hx & Heq). apply String.eqb_eq in Heq. by subst.
  - intros H. exists s. split; [done|]. apply String.eqb_refl.
Qed.

(** [allowed_file] accepts exactly the names whose part after the last
    dot is, lowered, an allowed extension. *)
Lemma allowed_file_spec (name : string) :
  allowed_file name = true ↔
  ∃ pre ext, name = pre +:+ "." +:+ ext ∧ contains_dot ext = false ∧
             lower ext ∈ ALLOWED_EXTENSIONS.
Proof.
  unfold allowed_file. split.
  - intros H. apply andb_true_iff in H as [_ H].
    destruct (rsplit_dot name) as [[pre ext]|] eqn:Hr; [|done].
    apply rsplit_dot_some in Hr as [-> Hd]. exists pre, ext.
    by rewrite <- str_in_elem.
  - intros (pre & ext & Hn & Hd & Hin).
    assert (Hr : rsplit_dot name = Some (pre, ext)) by (by apply rsplit_dot_some).
    rewrite Hr. apply andb_true_iff. split; [|by apply str_in_elem].
    destruct (contains_dot name) eqn:Hc; [done|].
    apply rsplit_dot_none in Hc. congruence.
Qed.

(** ** Running the monad *)

(** Unfold the handler [h] down to the state-passing function it is. *)
Ltac run h := unfold h, try_except, mbind, M_bind, lift, gets, modify, mret, M_ret.

Lemma bind_ok {A B} (m : M A) (k : A → M B) (w w' : World) (a : A) :
  m w = (Ok a, w') → (m ≫= k) w = k a w'.
Proof. intros H. unfold mbind, M_bind. by rewrite H. Qed.

Lemma bind_raise {A B} (m : M A) (k : A → M B) (w w' : World) (e : exn) :
  m w = (Raise e, w') → (m ≫= k) w = (Raise e, w').
Proof. intros H. unfold mbind, M_bind. by rewrite H. Qed.

Lemma try_except_ok {A} (m : M A) (h : exn → M A) (w w' : World) (a : A) :
  m w = (Ok a, w') → try_except m h w = (Ok a, w').
Proof. intros H. unfold try_except. by rewrite H. Qed.

Lemma try_except_raise {A} (m : M A) (h : exn → M A) (w w' : World) (e : exn) :
  m w = (Raise e, w') → try_except m h w = h e w'.
Proof. intros H. unfold try_except. by rewrite H. Qed.

(** ** Upload: requests that are turned away *)

(** The handler itself turns away, with status 400 and leaving
    everything as it was, a form without a file part, an empty file
    name, and a file name with no allowed extension after its last dot
    (compared in lower case). *)
Lemma upload_image_bad_request
    (env : Env) (file_part : option FileStorage) (w : World) :
  (file_part = None ∨
   ∃ file, file_part = Some file ∧
     (filename file = "" ∨
      ∀ pre ext, filename file = pre +:+ "." +:+ ext → contains_dot ext = false →
                 lower ext ∉ ALLOWED_EXTENSIONS)) →
  ∃ msg, upload_image env file_part w = (Ok (ErrorBody msg, 400%nat), w).
Proof.
  intros [-> | (file & -> & H)].
  - by eexists.
  - unfold upload_image.
    destruct (String.eqb (filename file) "") eqn:He; [by eexists|].
    destruct H as [H|H].
    { rewrite H in He. done. }
    assert (Ha : allowed_file (filename file) = false).
    { destruct (allowed_file (filename file)) eqn:Ha; [|done].
      apply allowed_file_spec in Ha as (pre & ext & Hn & Hd & Hin).
      by destruct (H pre ext). }
    rewrite Ha. by eexists.
Qed.

Lemma notes_txt_not_allowed (pre ext : string) :
  filename notes_txt = pre +:+ "." +:+ ext → contains_dot ext = false →
  lower ext ∉ ALLOWED_EXTENSIONS.
Proof.
  intros Hn Hd.
  assert (Hr : rsplit_dot "notes.txt" = Some (pre, ext)) by (by apply rsplit_dot_some).
  vm_compute in Hr. injection Hr as <- <-.
  rewrite <- str_in_elem. vm_compute. discriminate.
Qed.

(** C4, as the code has it. An upload without a file part, with an
    empty file name, or whose file name has no allowed extension after
    its last dot (compared in lower case) is answered with status 400
    when its body is no longer than 16 MB; when the body is longer,
    reading the form raises before the handler looks at the file, and
    the answer is status 413.  Either way no file is written and no row
    is created: the state is as before. *)
Theorem post_upload_rejects_bad_request (env : Env) (request : Request) (w : World) :
  (files_file request = None ∨
   ∃ file, files_file request = Some file ∧
     (filename file = "" ∨
      ∀ pre ext, filename file = pre +:+ "." +:+ ext → contains_dot ext = false →
                 lower ext ∉ ALLOWED_EXTENSIONS)) →
  ((content_length request ≤ MAX_CONTENT_LENGTH)%Z →
   ∃ msg, post_upload env request w = (Ok (ErrorBody msg, 400%nat), w) ∧
          http_status (fst (post_upload env request w)) = 400%nat) ∧
  ((MAX_CONTENT_LENGTH < content_length request)%Z →
   post_upload env request w = (Raise RequestEntityTooLarge, w) ∧
   http_status (fst (post_upload env request w)) = 413%nat).
Proof.
  intros Hbad. unfold post_upload, request_files, mbind, M_bind, lift. split.
  - intros Hlen. apply Z.ltb_ge in Hlen. rewrite Hlen.
    destruct (upload_image_bad_request env (files_file request) w Hbad) as [msg Hrun].
    exists msg. by rewrite Hrun.
  - intros Hlen. apply Z.ltb_lt in Hlen. by rewrite Hlen.
Qed.

Lemma post_upload_rejects_bad_request_witness :
  ∃ msg, post_upload env_ok request_1mb world0 = (Ok (ErrorBody msg, 400%nat), world0) ∧
         http_status (fst (post_upload env_ok request_1mb world0)) = 400%nat.
Proof.
  apply (post_upload_rejects_bad_request env_ok request_1mb world0).
  - right. exists notes_txt. split; [reflexivity|]. right.
    apply notes_txt_not_allowed.
  - vm_compute. discriminate.
Defined.

(** C4, as stated, fails: an upload of 17 MB whose file name has no
    allowed extension is answered with status 413, not 400. *)
Lemma post_upload_too_large :
  files_file request_17mb = Some notes_txt ∧
  allowed_file (filename notes_txt) = false ∧
  post_upload env_ok request_17mb world0 = (Raise RequestEntityTooLarge, world0) ∧
  http_status (fst (post_upload env_ok request_17mb world0)) = 413%nat ∧
  http_status (fst (post_upload env_ok request_17mb world0)) ≠ 400%nat.
Proof. by split_and!. Qed.

(** ** Upload: failures after the file is saved *)

Lemma load_model_frame (env : Env) (w w' : World) (r : result unit) :
  load_model env w = (r, w') →
  uploads w' = uploads w ∧ rows w' = rows w ∧
  treatment_cache w' = treatment_cache w ∧ service_calls w' = service_calls w.
Proof.
  unfold load_model.
  destruct (negb (processor_loaded w) || negb (model_loaded w));
    [|by intros [= <- <-]].
  destruct (load_processor env); [by intros [= <- <-]|].
  destruct (load_classifier env); by intros [= <- <-].
Qed.

(** Detection touches neither the upload directory nor the table. *)
Lemma detect_disease_frame (env : Env) (path : string) (w w' : World)
    (r : result (json * float)) :
  detect_disease env path w = (r, w') →
  uploads w' = uploads w ∧ rows w' = rows w.
Proof.
  run detect_disease.
  destruct (load_model env w) as [[[]|e] w1] eqn:Hl;
    apply load_model_frame in Hl as (Hu & Hr & _).
  - destruct (run_model env path) as [logits|e]; [|by intros [= <- <-]].
    destruct (argmax (softmax env logits)) as [top|e]; [|by intros [= <- <-]].
    destruct (item_at (softmax env logits) top) as [c|e]; [|by intros [= <- <-]].
    destruct (read_config env) as [cfg|e]; [|by intros [= <- <-]].
    destruct (class_name cfg top) as [name|e]; by intros [= <- <-].
  - by intros [= <- <-].
Qed.

Lemma remove_saved (s : gset string) (path : string) :
  ({[path]} ∪ s) ∖ {[path]} = s ∖ {[path]}.
Proof.
  apply set_eq. intros x.
  rewrite !elem_of_difference, elem_of_union, elem_of_singleton. tauto.
Qed.

Lemma removed_absent (s : gset string) (path : string) : path ∉ s ∖ {[path]}.
Proof. rewrite elem_of_difference, elem_of_singleton. tauto. Qed.

Lemma saved_present (s : gset string) (path : string) : path ∈ {[path]} ∪ s.
Proof. rewrite elem_of_union, elem_of_singleton. tauto. Qed.

(** C1. For an upload that passes the file-name checks and is saved: when
    detection raises, or the commit of the new row raises, the answer is
    status 500 with an error body, the saved file is gone from the upload
    directory, and the result table is as before. *)
Theorem upload_image_failure_cleans_up (env : Env) (file : FileStorage) (w : World) :
  filename file ≠ "" →
  allowed_file (filename file) = true →
  save_outcome env = None →
  ((∃ e, fst (detect_disease env (upload_path env file)
                (set_uploads (λ s, {[upload_path env file]} ∪ s) w)) = Raise e) ∨
   (∃ e, commit_outcome env = Some e)) →
  ∃ msg w',
    upload_image env (Some file) w = (Ok (ErrorBody msg, 500%nat), w') ∧
    (upload_path env file ∉ uploads w') ∧
    uploads w' = uploads w ∖ {[upload_path env file]} ∧
    rows w' = rows w.
Proof.
  intros Hne Ha Hsave Hfail.
  unfold upload_image.
  apply String.eqb_neq in Hne. rewrite Hne, Ha.
  unfold try_except, mbind, M_bind, file_save. rewrite Hsave.
  cbv beta iota zeta delta [negb].
  fold (upload_path env file). set (path := upload_path env file) in *.
  set (w1 := set_uploads (λ s, {[path]} ∪ s) w) in *.
  destruct (detect_disease env path w1) as [[[p c]|e] w2] eqn:Hd;
    pose proof (detect_disease_frame _ _ _ _ _ Hd) as [Hu Hr].
  - destruct Hfail as [[e He]|[e He]]; [done|].
    unfold db_session_commit. rewrite He.
    unfold os_path_exists, gets, os_remove, modify, mret, M_ret.
    rewrite bool_decide_true by (rewrite Hu; apply saved_present).
    eexists _, _. split; [reflexivity|]. simpl. rewrite Hu, Hr. subst w1. simpl.
    rewrite remove_saved. split_and!; [apply removed_absent|done|done].
  - unfold os_path_exists, gets, os_remove, modify, mret, M_ret.
    rewrite bool_decide_true by (rewrite Hu; apply saved_present).
    eexists _, _. split; [reflexivity|]. simpl. rewrite Hu, Hr. subst w1. simpl.
    rewrite remove_saved. split_and!; [apply removed_absent|done|done].
Qed.

Lemma upload_image_failure_cleans_up_witness :
  let env := env_with (λ _, Raise (ExternalError "cannot identify image file"))
                      (softmax env_ok) (read_config env_ok) None
                      (get_treatment_recommendation env_ok) (chat_with_gemini env_ok) in
  ∃ msg w',
    upload_image env (Some leaf_png) world0 = (Ok (ErrorBody msg, 500%nat), w') ∧
    (upload_path env leaf_png ∉ uploads w') ∧
    uploads w' = uploads world0 ∖ {[upload_path env leaf_png]} ∧
    rows w' = rows world0.
Proof.
  intros env. apply upload_image_failure_cleans_up.
  - discriminate.
  - reflexivity.
  - reflexivity.
  - left. eexists. reflexivity.
Defined.

(** ** One result by id *)

Lemma find_id_none (table : list PlantDiseaseResult.t) (result_id : Z) :
  (∀ r, r ∈ table → PlantDiseaseResult.id r ≠ result_id) →
  List.find (λ r, (PlantDiseaseResult.id r =? result_id)%Z) table = None.
Proof.
  intros H. induction table as [|x t IH]; simpl; [done|].
  destruct (Z.eqb_spec (PlantDiseaseResult.id x) result_id) as [Heq|_].
  - destruct (H x); [left|done].
  - apply IH. intros r Hr. apply H. by right.
Qed.

(** C2 (the code departs from it). For an id without a stored row,
    [get_or_404] raises [NotFound]; the handler's own [except Exception]
    catches it and answers with status 500, not 404. *)
Theorem get_result_absent_is_500 (env : Env) (result_id : Z) (w : World) :
  query_outcome env = None →
  (∀ r, r ∈ rows w → PlantDiseaseResult.id r ≠ result_id) →
  get_result env result_id w = (Ok (ErrorBody (str NotFound), 500%nat), w).
Proof.
  intros Hq Habs.
  unfold get_result, try_except, mbind, M_bind, get_or_404.
  rewrite Hq, (find_id_none _ _ Habs). reflexivity.
Qed.

Lemma get_result_absent_is_500_witness :
  get_result env_ok 7 world0 = (Ok (ErrorBody (str NotFound), 500%nat), world0).
Proof.
  apply get_result_absent_is_500.
  - reflexivity.
  - intros r Hr. simpl in Hr. by apply elem_of_nil in Hr.
Defined.

(** A stored row is found and returned with status 200. *)
Lemma get_result_present (env : Env) (r : PlantDiseaseResult.t) (w : World) :
  query_outcome env = None →
  rows w = [r] →
  get_result env (PlantDiseaseResult.id r) w = (Ok (ResultBody r, 200%nat), w).
Proof.
  intros Hq Hr.
  unfold get_result, try_except, mbind, M_bind, get_or_404.
  rewrite Hq, Hr. simpl. by rewrite Z.eqb_refl.
Qed.

(** ** The heuristic classifier *)

(** C9 (the code departs from it). The module never imports [random]:
    where the two-label rule matches, where the mostly-green test
    matches and where no rule matches, the classifier raises NameError
    instead of returning a random class index. *)
Theorem simple_disease_classifier_random_undefined (rng : Random) :
  simple_disease_classifier rng brown_and_rough = Raise (NameError "random") ∧
  simple_disease_classifier rng mostly_green = Raise (NameError "random") ∧
  simple_disease_classifier rng no_symptoms = Raise (NameError "random").
Proof. split_and!; reflexivity. Qed.

(** The rules with a single label still answer. *)
Example simple_disease_classifier_yellow (rng : Random) :
  simple_disease_classifier rng [0; 3 # 10; 0; 0; 0; 0; 0; 0; 0; 0; 0]%Q = Ok 30%nat.
Proof. reflexivity. Qed.

(** Whatever the features, an index that is returned is one of the three
    fixed ones: no random draw is ever made. *)
Lemma simple_disease_classifier_returns (rng : Random) (features : list Q) (n : nat) :
  simple_disease_classifier rng features = Ok n → n ∈ [30; 6; 31]%nat.
Proof.
  unfold simple_disease_classifier, mbind, result_bind, rbind.
  change (global "random") with (@Raise unit (NameError "random")).
  repeat match goal with
         | |- context [match ?x with _ => _ end] => destruct x
         end; intros [= <-]; repeat constructor.
Qed.

(** ** The latest results *)

Lemma insert_desc_perm (r : PlantDiseaseResult.t) (l : list PlantDiseaseResult.t) :
  insert_desc r l ≡ₚ r :: l.
Proof.
  induction l as [|x t IH]; simpl; [done|].
  destruct (ts x <=? ts r)%Z; [done|].
  rewrite IH. apply Permutation_swap.
Qed.

Lemma insert_desc_sorted (r : PlantDiseaseResult.t) (l : list PlantDiseaseResult.t) :
  StronglySorted descending l → StronglySorted descending (insert_desc r l).
Proof.
  induction 1 as [|x t Ht IH Hx]; simpl.
  - repeat constructor.
  - destruct (Z.leb_spec (ts x) (ts r)) as [Hlt|Hge].
    + constructor; [by constructor|].
      constructor; [unfold descending; lia|].
      eapply Forall_impl; [exact Hx|]. unfold descending. intros y Hy. lia.
    + constructor; [done|].
      rewrite insert_desc_perm. constructor; [unfold descending; lia|done].
Qed.

Lemma order_by_timestamp_desc_perm (table : list PlantDiseaseResult.t) :
  order_by_timestamp_desc table ≡ₚ table.
Proof.
  induction table as [|x t IH]; simpl; [done|].
  by rewrite insert_desc_perm, IH.
Qed.

Lemma order_by_timestamp_desc_sorted (table : list PlantDiseaseResult.t) :
  StronglySorted descending (order_by_timestamp_desc table).
Proof.
  induction table as [|x t IH]; simpl; [constructor|].
  by apply insert_desc_sorted.
Qed.

(** C3, as the code has it. When the query succeeds, [/history] and
    [/api/results] hand back the same list: at most 20 rows, newest first
    with equal timestamps allowed, and no row left out is newer than a
    row that is shown. *)
Theorem latest_results_descending (env : Env) (w : World) :
  query_outcome env = None →
  ∃ results,
    history env w = (Ok (Template "history.html" results, 200%nat), w) ∧
    get_results env w = (Ok (ResultsBody results, 200%nat), w) ∧
    (length results ≤ 20)%nat ∧
    StronglySorted descending results ∧
    ∃ older, (results ++ older)%list ≡ₚ rows w ∧
             ∀ x y, x ∈ results → y ∈ older → descending x y.
Proof.
  intros Hq. exists (take 20 (order_by_timestamp_desc (rows w))).
  pose proof (order_by_timestamp_desc_sorted (rows w)) as Hs.
  rewrite <- (take_drop 20 (order_by_timestamp_desc (rows w))) in Hs.
  apply StronglySorted_app in Hs as (Hcross & Hl & _).
  split_and!.
  - unfold history, try_except, mbind, M_bind, query_latest. by rewrite Hq.
  - unfold get_results, try_except, mbind, M_bind, query_latest. by rewrite Hq.
  - rewrite length_take. lia.
  - done.
  - exists (drop 20 (order_by_timestamp_desc (rows w))). split; [|done].
    rewrite take_drop. apply order_by_timestamp_desc_perm.
Qed.

Lemma latest_results_descending_witness :
  ∃ results,
    (history env_ok world_two_uploads
       = (Ok (Template "history.html" results, 200%nat), world_two_uploads) ∧
     get_results env_ok world_two_uploads
       = (Ok (ResultsBody results, 200%nat), world_two_uploads) ∧
     (length results ≤ 20)%nat ∧
     StronglySorted descending results ∧
     ∃ older, (results ++ older)%list ≡ₚ rows world_two_uploads ∧
              ∀ x y, x ∈ results → y ∈ older → descending x y) ∧
    ids results = [1; 2]%Z ∧
    map ts results = [1700000000000000; 1700000000000000]%Z.
Proof.
  destruct (latest_results_descending env_ok world_two_uploads eq_refl) as (results & H).
  exists results. split; [exact H|].
  destruct H as (_ & Hg & _). apply (f_equal fst) in Hg.
  assert (Hrun : ∃ a b, fst (get_results env_ok world_two_uploads)
                        = Ok (ResultsBody [a; b], 200%nat) ∧
                        ids [a; b] = [1; 2]%Z ∧
                        map ts [a; b] = [1700000000000000; 1700000000000000]%Z)
    by (eexists _, _; split_and!; reflexivity).
  destruct Hrun as (a & b & Hrun & Hids & Hts).
  rewrite Hrun in Hg. simpl in Hg. injection Hg as <-. by split.
Defined.

(** C3, as stated, fails: after two uploads stamped with the same clock
    value both rows are listed, and the list is not strictly descending. *)
Lemma latest_results_not_strictly_descending :
  ∃ first second,
    get_results env_ok world_two_uploads
      = (Ok (ResultsBody [first; second], 200%nat), world_two_uploads) ∧
    history env_ok world_two_uploads
      = (Ok (Template "history.html" [first; second], 200%nat), world_two_uploads) ∧
    ts first = ts second ∧
    ¬ StronglySorted strictly_descending [first; second].
Proof.
  eexists _, _. split_and!.
  - reflexivity.
  - reflexivity.
  - reflexivity.
  - intros Hs. apply StronglySorted_cons in Hs as [Hf _].
    apply Forall_cons in Hf as [Hlt _]. unfold strictly_descending in Hlt.
    simpl in Hlt. lia.
Qed.

(** ** Arg-max *)

Lemma float_gt_irrefl (a : float) : float_gt a a = false.
Proof.
  destruct a as [q| | |]; simpl; try done.
  apply negb_false_iff, Qle_bool_iff, Qle_refl.
Qed.

Lemma float_gt_asym (a b : float) : float_gt a b = true → float_gt b a = false.
Proof.
  destruct a as [x| | |], b as [y| | |]; simpl; try done.
  intros Hxy%negb_true_iff. apply negb_false_iff, Qle_bool_iff.
  destruct (Qlt_le_dec y x) as [Hlt|Hle]; [by apply Qlt_le_weak|].
  apply Qle_bool_iff in Hle. congruence.
Qed.

(** Above a number that is not below [b] is above [b]. *)
Lemma float_gt_trans (a b c : float) :
  is_nan b = false → is_nan c = false →
  float_gt a b = true → float_gt c b = false → float_gt a c = true.
Proof.
  destruct a as [x| | |], b as [y| | |], c as [z| | |]; simpl; try done.
  intros _ _ Hxy%negb_true_iff Hzy%negb_false_iff. apply negb_true_iff.
  apply Qle_bool_iff in Hzy.
  destruct (Qle_bool x z) eqn:Hxz; [|done].
  apply Qle_bool_iff in Hxz.
  assert (Hle : (x <= y)%Q) by (by eapply Qle_trans).
  apply Qle_bool_iff in Hle. congruence.
Qed.

Lemma greater_or_nan_irrefl (a : float) : greater_or_nan a a = false.
Proof.
  unfold greater_or_nan. destruct (is_nan a) eqn:Ha; [done|apply float_gt_irrefl].
Qed.

Lemma greater_or_nan_asym (a b : float) :
  greater_or_nan a b = true → greater_or_nan b a = false.
Proof.
  unfold greater_or_nan.
  destruct a as [x| | |], b as [y| | |]; try done; apply float_gt_asym.
Qed.

(** What beats the winner so far beats all that the winner kept off. *)
Lemma greater_or_nan_trans (a b c : float) :
  greater_or_nan a b = true → greater_or_nan c b = false → greater_or_nan a c = true.
Proof.
  unfold greater_or_nan.
  destruct (is_nan a) eqn:Ha, (is_nan b) eqn:Hb, (is_nan c) eqn:Hc; try done.
  - by destruct a, b.
  - by destruct a, b.
  - by apply float_gt_trans.
Qed.

(** The scan keeps the index of the first entry that no entry beats. *)
Lemma argmax_from_spec (l seen : list float) (best_i : nat) (best : float) :
  seen !! best_i = Some best →
  (∀ j y, seen !! j = Some y →
          greater_or_nan y best = false ∧ (j < best_i → greater_or_nan best y = true)) →
  ∃ v, (seen ++ l)%list !! argmax_from best_i best (length seen) l = Some v ∧
       ∀ j y, (seen ++ l)%list !! j = Some y →
              greater_or_nan y v = false ∧
              (j < argmax_from best_i best (length seen) l → greater_or_nan v y = true).
Proof.
  revert seen best_i best. induction l as [|x t IH]; intros seen best_i best Hb Hinv.
  - simpl. rewrite app_nil_r. by exists best.
  - simpl. replace (seen ++ x :: t)%list with ((seen ++ [x]) ++ t)%list
      by (by rewrite <- app_assoc).
    replace (S (length seen)) with (length (seen ++ [x])%list)
      by (rewrite length_app; simpl; lia).
    destruct (greater_or_nan x best) eqn:Hx.
    + apply IH.
      * by rewrite lookup_app_r, Nat.sub_diag.
      * intros j y Hj. apply lookup_app_Some in Hj as [Hj|[Hlen Hj]].
        -- destruct (Hinv j y Hj) as [Hle _].
           assert (Hxy : greater_or_nan x y = true) by (by eapply greater_or_nan_trans).
           split; [by apply greater_or_nan_asym|done].
        -- apply list_lookup_singleton_Some in Hj as [Hj ->].
           split; [apply greater_or_nan_irrefl|]. intros ?. lia.
    + apply IH.
      * apply lookup_app_l_Some. done.
      * intros j y Hj. apply lookup_app_Some in Hj as [Hj|[Hlen Hj]].
        -- by apply Hinv.
        -- apply list_lookup_singleton_Some in Hj as [Hj ->].
           split; [done|]. intros Hlt. apply lookup_lt_Some in Hb. lia.
Qed.

(** [argmax] answers on every non-empty row, with the index of the first
    entry that no entry beats. *)
Lemma argmax_spec (row : list float) :
  row ≠ [] →
  ∃ top v, argmax row = Ok top ∧ row !! top = Some v ∧
           ∀ j y, row !! j = Some y →
                  greater_or_nan y v = false ∧ (j < top → greater_or_nan v y = true).
Proof.
  destruct row as [|x t]; [done|]. intros _.
  destruct (argmax_from_spec t [x] 0 x) as (v & Hv & Hmax).
  - done.
  - intros j y Hj. apply list_lookup_singleton_Some in Hj as [-> ->].
    split; [apply greater_or_nan_irrefl|lia].
  - exists (argmax_from 0 x 1 t), v. by split_and!.
Qed.

Lemma argmax_ok_nonempty (row : list float) (top : nat) :
  argmax row = Ok top → row ≠ [].
Proof. by destruct row. Qed.

Lemma argmax_ok_lookup (row : list float) (top : nat) :
  argmax row = Ok top → is_Some (row !! top).
Proof.
  intros H. pose proof (argmax_ok_nonempty _ _ H) as Hne.
  destruct (argmax_spec row Hne) as (k & v & Hk & Hv & _).
  rewrite H in Hk. injection Hk as <-. by exists v.
Qed.

(** ** Detection *)


(** [class_name] answers when the config is an object whose [id2label]
    is an object or is missing, and then with the mapping's value for
    the index, or with [Class_<index>] when the mapping has none. *)
Lemma class_name_ok (config : json) (top : nat) (name : json) :
  class_name config top = Ok name ↔
  ∃ items labels,
    config = JObj items ∧
    default (JObj []) (dict_get "id2label" items) = JObj labels ∧
    name = default (JStr ("Class_" +:+ str_of_nat top)) (dict_get (str_of_nat top) labels).
Proof.
  unfold class_name, mbind, result_bind, rbind, py_get. split.
  - destruct config as [| | | | |items]; try done.
    destruct (default (JObj []) (dict_get "id2label" items)) as [| | | | |labels] eqn:Hl;
      try done.
    intros [= <-]. by exists items, labels.
  - intros (items & labels & -> & Hl & ->). by rewrite Hl.
Qed.

(** What a successful detection returned. *)
Lemma detect_disease_ok (env : Env) (path : string) (w w' : World)
    (predicted : json) (confidence : float) :
  detect_disease env path w = (Ok (predicted, confidence), w') →
  ∃ logits items labels top,
    run_model env path = Ok logits ∧
    argmax (softmax env logits) = Ok top ∧
    softmax env logits !! top = Some confidence ∧
    read_config env = Ok (JObj items) ∧
    default (JObj []) (dict_get "id2label" items) = JObj labels ∧
    predicted = default (JStr ("Class_" +:+ str_of_nat top)) (dict_get (str_of_nat top) labels).
Proof.
  run detect_disease. unfold item_at.
  destruct (load_model env w) as [[[]|e] w1]; [|done].
  destruct (run_model env path) as [logits|e]; [|done].
  destruct (argmax (softmax env logits)) as [top|e] eqn:Ha; [|done].
  destruct (softmax env logits !! top) as [c|] eqn:Hc; [|done].
  destruct (read_config env) as [cfg|e]; [|done].
  destruct (class_name cfg top) as [name|e] eqn:Hn; [|done].
  intros [= <- <- <-].
  apply class_name_ok in Hn as (items & labels & -> & Hl & ->).
  by exists logits, items, labels, top.
Qed.

(** When a detection returns. *)
Lemma detect_disease_run (env : Env) (path : string) (w : World)
    (logits : list float) (items labels : list (string * json)) :
  fst (load_model env w) = Ok tt →
  run_model env path = Ok logits →
  softmax env logits ≠ [] →
  read_config env = Ok (JObj items) →
  default (JObj []) (dict_get "id2label" items) = JObj labels →
  ∃ top confidence,
    detect_disease env path w
      = (Ok (default (JStr ("Class_" +:+ str_of_nat top)) (dict_get (str_of_nat top) labels),
             confidence),
         snd (load_model env w)) ∧
    argmax (softmax env logits) = Ok top ∧
    softmax env logits !! top = Some confidence.
Proof.
  intros Hload Hrun Hne Hcfg Hl.
  destruct (argmax_spec _ Hne) as (top & conf & Htop & Hconf & _).
  exists top, conf. split; [|done].
  run detect_disease. unfold item_at.
  destruct (load_model env w) as [[[]|e] w1]; [|done].
  rewrite Hrun, Htop, Hconf, Hcfg.
  assert (Hn : class_name (JObj items) top
               = Ok (default (JStr ("Class_" +:+ str_of_nat top))
                             (dict_get (str_of_nat top) labels)))
    by (apply class_name_ok; by exists items, labels).
  by rewrite Hn.
Qed.



(** With the scores 0 and 1 the second class is named. *)
Example detect_disease_two_classes :
  fst (detect_disease env_two_classes leaf_path world0)
    = Ok (JStr "Apple_Black_rot", Finite 1).
Proof. reflexivity. Qed.

(** Two equal scores: the first class is named, also when the second
    logit is the larger one. *)
Example detect_disease_near_tie :
  fst (detect_disease env_near_tie leaf_path world0)
    = Ok (JStr "Apple_Apple_scab", Finite (1 # 2)).
Proof. reflexivity. Qed.

(** Scores that are not numbers: the first class is named, with NaN as
    confidence. *)
Example detect_disease_nan :
  fst (detect_disease env_nan leaf_path world0) = Ok (JStr "Apple_Apple_scab", NaN).
Proof. reflexivity. Qed.

(** A config whose [id2label] is null: [None] has no [get]. *)
Example detect_disease_null_labels :
  fst (detect_disease env_null_labels leaf_path world0)
    = Raise (AttributeError "'NoneType' object has no attribute 'get'").
Proof. reflexivity. Qed.


(** ** Upload: the row that is created *)




(** ** The treatment cache *)

Lemma cache_remove_length (k : key) (c : list (key * string)) (text : string) :
  cache_get k c = Some text → S (List.length (cache_remove k c)) = List.length c.
Proof.
  induction c as [|[k' v] rest IH]; simpl; [done|].
  destruct (decide (k' = k)); [done|].
  intros H. simpl. by rewrite IH.
Qed.

Lemma removelast_length (c : list (key * string)) :
  List.length (removelast c) = pred (List.length c).
Proof. rewrite removelast_firstn_len, length_take. lia. Qed.

Lemma cache_store_length (k : key) (text : string) (c : list (key * string)) :
  (List.length c ≤ maxsize → List.length (cache_store k text c) ≤ maxsize)%nat.
Proof.
  intros Hlen. unfold cache_store.
  destruct (Nat.leb_spec maxsize (List.length c)) as [Hfull|Hroom]; simpl.
  - rewrite removelast_length. unfold maxsize in *. lia.
  - lia.
Qed.

(** A cached text is served without calling the service. *)
Lemma get_cached_treatment_hit (env : Env) (d : json) (k : key) (text : string) (w : World) :
  make_key d = Ok k →
  cache_get k (cache w) = Some text →
  ∃ w', get_cached_treatment env d w = (Ok text, w') ∧
        calls w' = calls w ∧
        cache_get k (cache w') = Some text ∧
        List.length (cache w') = List.length (cache w).
Proof.
  intros Hk Hget.
  run get_cached_treatment.
  rewrite Hk, Hget. eexists. split; [reflexivity|]. simpl.
  split_and!; [done|by rewrite decide_True|].
  by rewrite (cache_remove_length _ _ _ Hget).
Qed.

(** What a call that returned has done. *)
Lemma get_cached_treatment_ok (env : Env) (d : json) (text : string) (w w' : World) :
  get_cached_treatment env d w = (Ok text, w') →
  ∃ k, make_key d = Ok k ∧
       cache_get k (cache w') = Some text ∧
       (calls w' = calls w ∨ calls w' = (calls w ++ [d])%list) ∧
       (List.length (cache w) ≤ maxsize → List.length (cache w') ≤ maxsize)%nat.
Proof.
  run get_cached_treatment.
  destruct (make_key d) as [k|e]; [|done].
  destruct (cache_get k (cache w)) as [v|] eqn:Hget.
  - intros [= <- <-]. exists k. simpl. split_and!; [done|by rewrite decide_True|by left|].
    by rewrite (cache_remove_length _ _ _ Hget).
  - simpl. destruct (get_treatment_recommendation env _ d) as [v|e]; [|done].
    intros [= <- <-]. exists k.
    unfold set_treatment_cache, log_service_call. cbn [treatment_cache service_calls].
    split_and!.
    + done.
    + unfold cache_store. simpl. by rewrite decide_True.
    + by right.
    + apply cache_store_length.
Qed.

(** What a call that raised has done: nothing is stored. *)
Lemma get_cached_treatment_raise (env : Env) (d : json) (e : exn) (w w' : World) :
  get_cached_treatment env d w = (Raise e, w') → cache w' = cache w.
Proof.
  run get_cached_treatment.
  destruct (make_key d) as [k|e']; [|by intros [= _ <-]].
  destruct (cache_get k (cache w)) as [v|]; [done|].
  simpl. destruct (get_treatment_recommendation env _ d) as [v|e']; [done|].
  by intros [= _ <-].
Qed.

(** The route, once the body is known to carry a disease. *)
Lemma get_treatment_run (env : Env) (data d : json) (w : World) :
  field_missing "disease" data = Ok false →
  py_getitem data "disease" = Ok d →
  get_treatment env (Ok data) w =
    match get_cached_treatment env d w with
    | (Ok text, w') => (Ok (TreatmentBody text, 200%nat), w')
    | (Raise e, w') => (Ok (ErrorBody (str e), 500%nat), w')
    end.
Proof.
  intros Hm Hd.
  unfold get_treatment, try_except, mbind at 1 2 3, M_bind, lift.
  rewrite Hm, Hd. unfold mbind, M_bind.
  by destruct (get_cached_treatment env d w) as [[text|e] w'].
Qed.

Lemma get_treatment_ok (env : Env) (request_json : result json) (text : string)
    (w w' : World) :
  get_treatment env request_json w = (Ok (TreatmentBody text, 200%nat), w') →
  ∃ data d, request_json = Ok data ∧
            field_missing "disease" data = Ok false ∧
            py_getitem data "disease" = Ok d ∧
            get_cached_treatment env d w = (Ok text, w').
Proof.
  destruct request_json as [data|e].
  - destruct (field_missing "disease" data) as [[|]|e] eqn:Hm.
    + run get_treatment.
      rewrite Hm. done.
    + destruct (py_getitem data "disease") as [d|e] eqn:Hd.
      * rewrite (get_treatment_run _ _ _ _ Hm Hd).
        destruct (get_cached_treatment env d w) as [[t|e] w1] eqn:Hc; [|done].
        intros [= <- <-]. by exists data, d.
      * run get_treatment.
        rewrite Hm, Hd. done.
    + run get_treatment.
      rewrite Hm. done.
  - run get_treatment. done.
Qed.

Lemma cache_get_elem (k : key) (c : list (key * string)) (text : string) :
  cache_get k c = Some text → (k, text) ∈ c.
Proof.
  induction c as [|[k' v] rest IH]; simpl; [done|].
  destruct (decide (k' = k)) as [->|_].
  - intros [= ->]. left.
  - intros H. right. by apply IH.
Qed.

Lemma cache_remove_elem (k : key) (c : list (key * string)) (kv : key * string) :
  kv ∈ cache_remove k c → kv ∈ c.
Proof.
  induction c as [|[k' v] rest IH]; simpl; [done|].
  destruct (decide (k' = k)).
  - intros H. by right.
  - intros [->|H]%elem_of_cons; [left|right; by apply IH].
Qed.

Lemma cache_store_elem (k : key) (text : string) (c : list (key * string))
    (kv : key * string) :
  kv ∈ cache_store k text c → kv = (k, text) ∨ kv ∈ c.
Proof.
  unfold cache_store. intros [->|H]%elem_of_cons; [by left|right].
  destruct (maxsize <=? List.length c)%nat; [|done].
  rewrite removelast_firstn_len in H. by eapply subseteq_take.
Qed.

(** Whatever the cache holds after a call was there before, or is the
    text the service has just returned. *)
Lemma get_cached_treatment_entries (env : Env) (d : json) (w w' : World)
    (r : result string) (kv : key * string) :
  get_cached_treatment env d w = (r, w') →
  kv ∈ cache w' →
  kv ∈ cache w ∨
  ∃ text, get_treatment_recommendation env (List.length (calls w)) d = Ok text ∧
          make_key d = Ok kv.1 ∧ kv.2 = text.
Proof.
  run get_cached_treatment.
  destruct (make_key d) as [k|e]; [|intros [= _ <-]; by left].
  destruct (cache_get k (cache w)) as [v|] eqn:Hget.
  - intros [= _ <-]. unfold set_treatment_cache. cbn [treatment_cache].
    intros [->|H]%elem_of_cons; left.
    + by apply cache_get_elem.
    + by apply cache_remove_elem in H.
  - cbn beta iota.
    destruct (get_treatment_recommendation env _ d) as [v|e] eqn:Hs.
    + intros [= _ <-]. unfold set_treatment_cache, log_service_call.
      cbn [treatment_cache]. intros [->|H]%cache_store_elem; [right|by left].
      by exists v.
    + intros [= _ <-]. by left.
Qed.

Lemma get_treatment_entries (env : Env) (request_json : result json) (w : World)
    (kv : key * string) :
  kv ∈ cache (snd (get_treatment env request_json w)) →
  kv ∈ cache w ∨
  ∃ d text, get_treatment_recommendation env (List.length (calls w)) d = Ok text ∧
            make_key d = Ok kv.1 ∧ kv.2 = text.
Proof.
  destruct request_json as [data|e]; [|by left].
  destruct (field_missing "disease" data) as [[|]|e] eqn:Hm.
  - run get_treatment.
    rewrite Hm. by left.
  - destruct (py_getitem data "disease") as [d|e] eqn:Hd.
    + rewrite (get_treatment_run _ _ _ _ Hm Hd).
      destruct (get_cached_treatment env d w) as [r w1] eqn:Hc.
      intros Hin. assert (Hin' : kv ∈ cache w1) by (by destruct r).
      destruct (get_cached_treatment_entries _ _ _ _ _ _ Hc Hin') as [?|(t & ?)];
        [by left|right; by exists d, t].
    + run get_treatment.
      rewrite Hm, Hd. by left.
  - run get_treatment.
    rewrite Hm. by left.
Qed.

(** C6, as the code has it. When a treatment request is answered with a
    text, the same request made next is answered with the same text from
    the cache: the service is not called again, so it is called at most
    once over the two requests; a cache of at most 100 entries stays so. *)
Theorem get_treatment_twice_when_first_succeeds
    (env env' : Env) (request_json : result json) (text : string) (w w1 : World) :
  get_treatment env request_json w = (Ok (TreatmentBody text, 200%nat), w1) →
  ∃ w2,
    get_treatment env' request_json w1 = (Ok (TreatmentBody text, 200%nat), w2) ∧
    calls w2 = calls w1 ∧
    (List.length (calls w2) ≤ S (List.length (calls w)))%nat ∧
    ((List.length (cache w) ≤ maxsize)%nat →
     (List.length (cache w1) ≤ maxsize)%nat ∧ (List.length (cache w2) ≤ maxsize)%nat).
Proof.
  intros (data & d & -> & Hm & Hd & Hc)%get_treatment_ok.
  apply get_cached_treatment_ok in Hc as (k & Hk & Hget & Hcalls & Hsize).
  destruct (get_cached_treatment_hit env' d k text w1 Hk Hget)
    as (w2 & Hrun & Hcalls2 & _ & Hlen2).
  exists w2. split_and!.
  - by rewrite (get_treatment_run _ _ _ _ Hm Hd), Hrun.
  - done.
  - rewrite Hcalls2. destruct Hcalls as [->| ->]; [lia|].
    rewrite length_app. simpl. lia.
  - intros Hlen. rewrite Hlen2. split; by apply Hsize.
Qed.

Lemma get_treatment_twice_when_first_succeeds_witness :
  ∃ w2,
    get_treatment env_ok (treatment_request "Apple_Black_rot")
        (snd (get_treatment env_ok (treatment_request "Apple_Black_rot") world0))
      = (Ok (TreatmentBody "Remove and destroy infected leaves.", 200%nat), w2) ∧
    calls w2 = [JStr "Apple_Black_rot"].
Proof.
  destruct (get_treatment_twice_when_first_succeeds env_ok env_ok
              (treatment_request "Apple_Black_rot")
              "Remove and destroy infected leaves." world0 _ eq_refl)
    as (w2 & Hrun & Hcalls & _).
  exists w2. split; [exact Hrun|]. by rewrite Hcalls.
Defined.

(** C6, as stated, fails: when the service is down at the first request
    and back at the second, the two answers differ and the service has
    been called twice for the label. *)
Lemma get_treatment_twice_after_failure :
  let request := treatment_request "Apple_Black_rot" in
  let first := get_treatment env_flaky request world0 in
  let second := get_treatment env_flaky request (snd first) in
  fst first = Ok (ErrorBody "503 Service Unavailable", 500%nat) ∧
  fst second = Ok (TreatmentBody "Remove and destroy infected leaves.", 200%nat) ∧
  calls (snd second) = [JStr "Apple_Black_rot"; JStr "Apple_Black_rot"].
Proof. by split_and!. Qed.

(** C10. When the service raises for a label that is not cached, the
    route answers with status 500 and the cache is as before, so the
    next request for the label calls the service again; and whatever a
    request adds to the cache is a text the service returned. *)
Theorem treatment_failure_is_not_cached
    (env env' : Env) (data d : json) (k : key) (e : exn) (w : World) :
  field_missing "disease" data = Ok false →
  py_getitem data "disease" = Ok d →
  make_key d = Ok k →
  cache_get k (cache w) = None →
  get_treatment_recommendation env (List.length (calls w)) d = Raise e →
  (∃ w1,
     get_treatment env (Ok data) w = (Ok (ErrorBody (str e), 500%nat), w1) ∧
     cache w1 = cache w ∧
     calls w1 = (calls w ++ [d])%list ∧
     calls (snd (get_treatment env' (Ok data) w1)) = (calls w1 ++ [d])%list) ∧
  (∀ env'' request_json w'' kv,
     kv ∈ cache (snd (get_treatment env'' request_json w'')) →
     kv ∈ cache w'' ∨
     ∃ d' text, get_treatment_recommendation env'' (List.length (calls w'')) d' = Ok text ∧
                make_key d' = Ok kv.1 ∧ kv.2 = text).
Proof.
  intros Hm Hd Hk Hget Hraise. split; [|apply get_treatment_entries].
  exists (log_service_call d w). split_and!.
  - rewrite (get_treatment_run _ _ _ _ Hm Hd).
    run get_cached_treatment.
    by rewrite Hk, Hget; cbn beta iota; rewrite Hraise.
  - done.
  - done.
  - rewrite (get_treatment_run _ _ _ _ Hm Hd).
    run get_cached_treatment.
    rewrite Hk. cbn [treatment_cache log_service_call]. rewrite Hget. cbn beta iota.
    by destruct (get_treatment_recommendation env' _ d).
Qed.

Lemma treatment_failure_is_not_cached_witness :
  ∃ w1,
    get_treatment env_flaky (treatment_request "Apple_Black_rot") world0
      = (Ok (ErrorBody "503 Service Unavailable", 500%nat), w1) ∧
    cache w1 = [] ∧
    calls w1 = [JStr "Apple_Black_rot"] ∧
    calls (snd (get_treatment env_flaky (treatment_request "Apple_Black_rot") w1))
      = [JStr "Apple_Black_rot"; JStr "Apple_Black_rot"].
Proof.
  destruct (treatment_failure_is_not_cached env_flaky env_flaky
              (JObj [("disease", JStr "Apple_Black_rot")]) (JStr "Apple_Black_rot")
              (KStr "Apple_Black_rot") (ExternalError "503 Service Unavailable") world0
              eq_refl eq_refl eq_refl eq_refl eq_refl)
    as [(w1 & Hrun & Hcache & Hcalls & Hnext) _].
  exists w1. split_and!; [exact Hrun|exact Hcache|exact Hcalls|].
  unfold treatment_request. rewrite Hnext, Hcalls. reflexivity.
Defined.

(** ** Chat *)

Lemma field_missing_object (key : string) (items : list (string * json)) :
  field_missing key (JObj items) = Ok (bool_decide (dict_get key items = None)).
Proof.
  unfold field_missing. destruct items as [|kv rest]; [done|].
  cbn [truthy negb py_in mbind result_bind rbind].
  by destruct (dict_get key (kv :: rest)).
Qed.

(** C8, as the code has it. For a request whose JSON body is an object:
    without a [message] field the answer is status 400; with one, the
    chat service is asked under the [session_id] of the body when the
    body has one, and otherwise under the id held in the client's
    server-signed session, which the server generates when the session
    has none; a reply is answered with status 200, the reply and that
    session id, and a service that raises with status 500 and an error
    body. *)
Theorem handle_chat_object_body (env : Env) (items : list (string * json)) (w : World) :
  (dict_get "message" items = None →
   handle_chat env (Ok (JObj items)) w = (Ok (ErrorBody "Message is required", 400%nat), w)) ∧
  (∀ message, dict_get "message" items = Some message →
     let own := default (uuid4 env) (session_id w) in
     let sid := default (JStr own) (dict_get "session_id" items) in
     let w' := if session_id w is Some _ then w else set_session_id (Some own) w in
     handle_chat env (Ok (JObj items)) w =
       match chat_with_gemini env sid message with
       | Ok reply => (Ok (ChatBody reply sid, 200%nat), w')
       | Raise e => (Ok (ErrorBody (str e), 500%nat), w')
       end).
Proof.
  split.
  - intros Hm.
    unfold handle_chat, try_except, mbind at 1 2, M_bind, lift.
    rewrite field_missing_object, Hm. reflexivity.
  - intros message Hm own sid w'.
    run handle_chat.
    rewrite field_missing_object, Hm. cbn [bool_decide decide_rel py_getitem py_in].
    rewrite Hm. subst own sid w'.
    destruct (session_id w) as [held|] eqn:Hs;
      destruct (dict_get "session_id" items) as [given|] eqn:Hg; simpl;
      rewrite ?Hs, ?Hg; simpl;
      by destruct (chat_with_gemini env _ message).
Qed.

Lemma handle_chat_object_body_witness :
  handle_chat env_ok (Ok (JObj [("message", JStr "Is it contagious?")])) world0
    = (Ok (ChatBody "Hello, how can I help?" (JStr (uuid4 env_ok)), 200%nat),
       set_session_id (Some (uuid4 env_ok)) world0).
Proof.
  destruct (handle_chat_object_body env_ok [("message", JStr "Is it contagious?")] world0)
    as [_ H].
  exact (H (JStr "Is it contagious?") eq_refl).
Defined.

(** C8, as stated, fails: the body has a message, the chat service
    raises, and the answer is status 500 with an error body instead of a
    reply and a session id. *)
Lemma handle_chat_service_failure :
  fst (handle_chat env_chat_down (Ok (JObj [("message", JStr "Is it contagious?")])) world0)
    = Ok (ErrorBody "504 Deadline Exceeded", 500%nat).
Proof. reflexivity. Qed.

(** The id of the body wins over the id of the session. *)
Example handle_chat_client_session :
  fst (handle_chat env_ok
         (Ok (JObj [("message", JStr "And now?"); ("session_id", JStr "abc")]))
         (set_session_id (Some "held") world0))
    = Ok (ChatBody "Hello, how can I help?" (JStr "abc"), 200%nat).
Proof. reflexivity. Qed.

(** A body that is a JSON array holding the string [message] passes the
    membership test and fails at the subscript: status 500. *)
Example handle_chat_array_body :
  fst (handle_chat env_ok (Ok (JArr [JStr "message"])) world0)
    = Ok (ErrorBody "list indices must be integers or slices, not str", 500%nat).
Proof. reflexivity. Qed.

(** A body that is a number fails at the membership test: status 500. *)
Example handle_chat_number_body :
  fst (handle_chat env_ok (Ok (JNum 5)) world0)
    = Ok (ErrorBody "argument of type 'int' is not iterable", 500%nat).
Proof. reflexivity. Qed.

(** * Further properties of the code *)

(** ** File names, again *)

(** X1. [allowed_file] accepts a name exactly when the part after its
    last dot is, in lower case, one of png, jpg, jpeg, gif; a name
    without a dot is never accepted. *)
Theorem allowed_file_iff_last_extension (name : string) :
  (allowed_file name = true ↔
   ∃ pre ext, name = pre +:+ "." +:+ ext ∧ contains_dot ext = false ∧
              lower ext ∈ ALLOWED_EXTENSIONS) ∧
  (contains_dot name = false → allowed_file name = false).
Proof.
  split; [apply allowed_file_spec|].
  intros H. unfold allowed_file. by rewrite H.
Qed.

(** ** Upload: the steps and what they leave behind *)

Lemma next_id_above (table : list PlantDiseaseResult.t) (r : PlantDiseaseResult.t) :
  r ∈ table → (PlantDiseaseResult.id r < next_id table)%Z.
Proof.
  unfold next_id. induction 1 as [x t|x y t _ IH]; simpl; lia.
Qed.

Lemma file_save_frame (env : Env) (path : string) (w w1 : World) (r : result unit) :
  file_save env path w = (r, w1) →
  rows w1 = rows w ∧ processor_loaded w1 = processor_loaded w ∧
  model_loaded w1 = model_loaded w ∧ cache w1 = cache w ∧ calls w1 = calls w ∧
  session_id w1 = session_id w.
Proof.
  unfold file_save. destruct (save_outcome env) as [[e created]|].
  - destruct created; by intros [= <- <-].
  - by intros [= <- <-].
Qed.

(** Every way [upload_image] can end: an error answer with the table
    as it was, or status 200 with the stored row appended. *)
Lemma upload_image_cases (env : Env) (file_part : option FileStorage) (w : World) :
  (∃ msg code, fst (upload_image env file_part w) = Ok (ErrorBody msg, code) ∧
               code ≠ 200%nat ∧
               rows (snd (upload_image env file_part w)) = rows w) ∨
  (∃ file prediction confidence w2,
     file_part = Some file ∧
     filename file ≠ "" ∧ allowed_file (filename file) = true ∧
     save_outcome env = None ∧
     detect_disease env (upload_path env file)
       (set_uploads (λ s, {[upload_path env file]} ∪ s) w) = (Ok (prediction, confidence), w2) ∧
     commit_outcome env = None ∧
     upload_image env file_part w =
       (Ok (UploadBody (next_id (rows w)) (upload_path env file) prediction confidence (now env),
            200%nat),
        set_rows (λ table, (table ++ [stored_row env file w prediction confidence])%list) w2)).
Proof.
  destruct (upload_image env file_part w) as [res w'] eqn:Hrun. simpl.
  assert (Herr : ∀ msg code,
            (res, w') = (Ok (ErrorBody msg, code), w') → code ≠ 200%nat → rows w' = rows w →
            ∃ msg code, res = Ok (ErrorBody msg, code) ∧ code ≠ 200%nat ∧ rows w' = rows w).
  { intros msg code [= ->] ? ?. by exists msg, code. }
  revert Hrun.
  destruct file_part as [file|]; [|intros [= <- <-]; left; by eapply Herr].
  unfold upload_image.
  destruct (String.eqb_spec (filename file) "") as [|Hne];
    [intros [= <- <-]; left; by eapply Herr|].
  destruct (allowed_file (filename file)) eqn:Ha;
    [|intros [= <- <-]; left; by eapply Herr].
  unfold try_except, mbind, M_bind.
  cbv beta iota zeta delta [negb]. fold (upload_path env file).
  set (path := upload_path env file).
  destruct (file_save env path w) as [[[]|e] w1] eqn:Hsave.
  2:{ apply file_save_frame in Hsave as (Hr & _).
      unfold os_path_exists, gets, os_remove, modify, mret, M_ret.
      destruct (bool_decide (path ∈ uploads w1)); intros [= <- <-]; left; by eapply Herr. }
  pose proof (file_save_frame _ _ _ _ _ Hsave) as (Hr1 & _).
  unfold file_save in Hsave. destruct (save_outcome env) as [[e c]|] eqn:Hso; [done|].
  injection Hsave as <-.
  destruct (detect_disease env path _) as [[[predicted conf]|e] w2] eqn:Hd.
  2:{ apply detect_disease_frame in Hd as [_ Hr2].
      unfold os_path_exists, gets, os_remove, modify, mret, M_ret.
      destruct (bool_decide (path ∈ uploads w2)); intros [= <- <-]; left;
        (eapply Herr; [reflexivity|done|simpl; congruence]). }
  pose proof (detect_disease_frame _ _ _ _ _ Hd) as [_ Hr2].
  unfold db_session_commit.
  destruct (commit_outcome env) as [e|] eqn:Hc.
  { unfold os_path_exists, gets, os_remove, modify, mret, M_ret.
    destruct (bool_decide (path ∈ uploads w2)); intros [= <- <-]; left;
      (eapply Herr; [reflexivity|done|simpl; congruence]). }
  unfold mret, M_ret. intros [= <- <-].
  right. exists file, predicted, conf, w2.
  split_and!; [done..|].
  unfold stored_row. fold path. simpl. by rewrite Hr2, Hr1.
Qed.

(** X2. When the file name passes the checks, the file is saved, the
    detector returns and the commit goes through, the upload answers
    with status 200 and the fields of the one row it appends; the row
    holds the detector's answer, the path of the saved file and the
    clock value, its key is larger than every key of the table, and the
    file is in the upload directory. *)
Theorem upload_image_success (env : Env) (file : FileStorage) (w w2 : World)
    (prediction : string) (confidence : Q) :
  filename file ≠ "" →
  allowed_file (filename file) = true →
  save_outcome env = None →
  detect_disease env (upload_path env file)
    (set_uploads (λ s, {[upload_path env file]} ∪ s) w)
    = (Ok (JStr prediction, Finite confidence), w2) →
  commit_outcome env = None →
  ∃ w',
    upload_image env (Some file) w =
      (Ok (UploadBody (next_id (rows w)) (upload_path env file)
                      (JStr prediction) (Finite confidence) (now env),
           200%nat), w') ∧
    rows w' = (rows w ++ [stored_row env file w (JStr prediction) (Finite confidence)])%list ∧
    (∀ r, r ∈ rows w → (PlantDiseaseResult.id r < next_id (rows w))%Z) ∧
    uploads w' = {[upload_path env file]} ∪ uploads w.
Proof.
  intros Hne Ha Hsave Hd Hc.
  destruct (upload_image_cases env (Some file) w)
    as [(msg & code & Hres & Hcode & _)|(f & p & c & w2' & [= <-] & _ & _ & _ & Hd' & _ & Hrun)].
  - exfalso. revert Hres. unfold upload_image.
    apply String.eqb_neq in Hne. rewrite Hne, Ha.
    unfold try_except, mbind, M_bind, file_save. rewrite Hsave.
    cbv beta iota zeta delta [negb]. fold (upload_path env file). rewrite Hd.
    unfold db_session_commit. rewrite Hc. done.
  - rewrite Hd in Hd'. injection Hd' as <- <- <-.
    pose proof (detect_disease_frame _ _ _ _ _ Hd) as [Hu Hr].
    eexists. split; [exact Hrun|]. simpl. rewrite Hu, Hr. split_and!.
    + reflexivity.
    + apply next_id_above.
    + reflexivity.
Qed.

Lemma upload_image_success_witness :
  ∃ w',
    upload_image env_ok (Some leaf_png) world0 =
      (Ok (UploadBody 1 leaf_path (JStr "Apple_Apple_scab") (Finite 1) (now env_ok),
           200%nat), w') ∧
    uploads w' = {[leaf_path]} ∪ ∅.
Proof.
  destruct (upload_image_success env_ok leaf_png world0 _
              "Apple_Apple_scab" 1%Q
              ltac:(discriminate) eq_refl eq_refl eq_refl eq_refl)
    as (w' & Hrun & _ & _ & Hup).
  exists w'. split; [exact Hrun|exact Hup].
Defined.

(** X3. When [file.save] raises, the upload answers with status 500 and
    the text of the exception; whether or not the failed save left a
    file behind, the path is not in the upload directory afterwards, the
    table is as before, and the detector has not been started. *)
Theorem upload_image_save_failure (env : Env) (file : FileStorage) (w : World)
    (e : exn) (created : bool) :
  filename file ≠ "" →
  allowed_file (filename file) = true →
  save_outcome env = Some (e, created) →
  ∃ w',
    upload_image env (Some file) w = (Ok (ErrorBody (str e), 500%nat), w') ∧
    uploads w' = uploads w ∖ {[upload_path env file]} ∧
    rows w' = rows w ∧
    processor_loaded w' = processor_loaded w ∧ model_loaded w' = model_loaded w.
Proof.
  intros Hne Ha Hsave. unfold upload_image.
  apply String.eqb_neq in Hne. rewrite Hne, Ha.
  unfold try_except, mbind, M_bind, file_save. rewrite Hsave.
  cbv beta iota zeta delta [negb]. fold (upload_path env file).
  set (path := upload_path env file).
  unfold os_path_exists, gets, os_remove, modify, mret, M_ret.
  destruct created.
  - rewrite bool_decide_true by apply saved_present.
    eexists. split; [reflexivity|]. simpl. by rewrite remove_saved.
  - destruct (bool_decide (path ∈ uploads w)) eqn:Hin.
    + eexists. split; [reflexivity|]. done.
    + eexists. split; [reflexivity|]. split_and!; [|done..].
      apply bool_decide_eq_false in Hin. apply set_eq. intros x.
      rewrite elem_of_difference, elem_of_singleton. split; [|tauto].
      intros Hx. split; [done|]. intros ->. done.
Qed.

Lemma upload_image_save_failure_witness :
  ∃ w',
    upload_image env_disk_full (Some leaf_png) world0
      = (Ok (ErrorBody "[Errno 28] No space left on device", 500%nat), w') ∧
    uploads w' = uploads world0 ∖ {[upload_path env_disk_full leaf_png]} ∧
    rows w' = rows world0 ∧
    processor_loaded w' = processor_loaded world0 ∧ model_loaded w' = model_loaded world0.
Proof.
  apply (upload_image_save_failure env_disk_full leaf_png world0
           (ExternalError "[Errno 28] No space left on device") true).
  - discriminate.
  - reflexivity.
  - reflexivity.
Defined.

(** ** Keys and lookups *)

Lemma upload_image_rows (env : Env) (file_part : option FileStorage) (w : World) :
  rows (snd (upload_image env file_part w)) = rows w ∨
  ∃ r, rows (snd (upload_image env file_part w)) = (rows w ++ [r])%list ∧
       PlantDiseaseResult.id r = next_id (rows w).
Proof.
  destruct (upload_image_cases env file_part w)
    as [(msg & code & _ & _ & Hrows)|(f & p & c & w2 & _ & _ & _ & _ & Hd & _ & Hrun)].
  - by left.
  - right. rewrite Hrun. simpl.
    apply detect_disease_frame in Hd as [_ ->]. by eexists.
Qed.

(** X4. Uploads keep the keys of the table distinct: whatever the
    request and however it ends, a table without a repeated id is still
    one afterwards. *)
Theorem upload_image_keeps_ids_distinct
    (env : Env) (file_part : option FileStorage) (w : World) :
  NoDup (ids (rows w)) →
  NoDup (ids (rows (snd (upload_image env file_part w)))).
Proof.
  intros Hnd. destruct (upload_image_rows env file_part w) as [->|(r & -> & Hid)]; [done|].
  unfold ids. rewrite map_app. apply NoDup_app. split_and!.
  - done.
  - intros i Hi [->|[]%elem_of_nil]%elem_of_cons.
    apply list_elem_of_fmap_1 in Hi as (x & Hx & Hin).
    apply next_id_above in Hin. lia.
  - simpl. apply NoDup_singleton.
Qed.

Lemma upload_image_keeps_ids_distinct_witness :
  NoDup (ids (rows (snd (upload_image env_second (Some leaf_png) world_one_upload)))).
Proof.
  apply upload_image_keeps_ids_distinct.
  unfold ids. simpl. apply NoDup_singleton.
Defined.

Lemma find_last (f : PlantDiseaseResult.t → bool) (table : list PlantDiseaseResult.t)
    (r : PlantDiseaseResult.t) :
  List.find f table = None → f r = true → List.find f (table ++ [r]) = Some r.
Proof.
  induction table as [|x t IH]; simpl.
  - by intros _ ->.
  - destruct (f x); [done|]. exact IH.
Qed.

(** What an upload that answered 200 has stored. *)
Lemma upload_image_200 (env : Env) (file_part : option FileStorage) (w w' : World)
    (i : Z) (path : string) (predicted : json) (conf : float) (t : Z) :
  upload_image env file_part w = (Ok (UploadBody i path predicted conf t, 200%nat), w') →
  ∃ r, rows w' = (rows w ++ [r])%list ∧
       r = {| PlantDiseaseResult.id := i; PlantDiseaseResult.image_path := path;
              PlantDiseaseResult.prediction := predicted;
              PlantDiseaseResult.confidence := conf;
              PlantDiseaseResult.timestamp := t |} ∧
       i = next_id (rows w) ∧ t = now env.
Proof.
  intros Hrun.
  destruct (upload_image_cases env file_part w)
    as [(msg & code & Hres & _)|(f & p & c & w2 & _ & _ & _ & _ & Hd & _ & Hrun')].
  - by rewrite Hrun in Hres.
  - rewrite Hrun in Hrun'. injection Hrun' as -> -> -> -> -> ->.
    apply detect_disease_frame in Hd as [_ Hr]. simpl. rewrite Hr.
    eexists. split; [reflexivity|]. by split_and!.
Qed.

(** X5. The id that a successful upload reports leads back to what it
    stored: asking [/api/result/<id>] for it next returns status 200
    with a row of exactly the reported fields. *)
Theorem upload_then_get_result (env env' : Env) (file_part : option FileStorage)
    (w w' : World) (i : Z) (path predicted : string) (conf : Q) (t : Z) :
  upload_image env file_part w
    = (Ok (UploadBody i path (JStr predicted) (Finite conf) t, 200%nat), w') →
  query_outcome env' = None →
  get_result env' i w' =
    (Ok (ResultBody {| PlantDiseaseResult.id := i; PlantDiseaseResult.image_path := path;
                       PlantDiseaseResult.prediction := JStr predicted;
                       PlantDiseaseResult.confidence := Finite conf;
                       PlantDiseaseResult.timestamp := t |}, 200%nat), w').
Proof.
  intros (r & Hrows & Hr & Hi & _)%upload_image_200 Hq.
  unfold get_result, try_except, mbind, M_bind, get_or_404.
  rewrite Hq, Hrows, (find_last _ _ r).
  - by rewrite Hr.
  - apply find_id_none. intros x Hx. apply next_id_above in Hx. lia.
  - rewrite Hr. simpl. apply Z.eqb_refl.
Qed.

Lemma upload_then_get_result_witness :
  get_result env_ok 1 world_one_upload =
    (Ok (ResultBody {| PlantDiseaseResult.id := 1; PlantDiseaseResult.image_path := leaf_path;
                       PlantDiseaseResult.prediction := JStr "Apple_Apple_scab";
                       PlantDiseaseResult.confidence := Finite 1;
                       PlantDiseaseResult.timestamp := now env_ok |}, 200%nat),
     world_one_upload).
Proof.
  exact (upload_then_get_result env_ok env_ok (Some leaf_png) world0 world_one_upload
           1 leaf_path "Apple_Apple_scab" 1%Q (now env_ok)
           eq_refl eq_refl).
Defined.

Lemma foldr_insert_desc_newest (r : PlantDiseaseResult.t)
    (table acc : list PlantDiseaseResult.t) :
  (∀ x, x ∈ table → (ts x < ts r)%Z) →
  foldr insert_desc (r :: acc) table = r :: foldr insert_desc acc table.
Proof.
  induction table as [|x t IH]; intros Hlt; simpl; [done|].
  rewrite IH by (intros y Hy; apply Hlt; by right).
  simpl. destruct (Z.leb_spec (ts r) (ts x)) as [Hbad|_]; [|done].
  specialize (Hlt x ltac:(left)). lia.
Qed.

(** X6. A successful upload stamped later than every stored row is
    listed first by [/api/results] and [/history], followed by what was
    listed before, cut to 19 rows. *)
Theorem upload_then_listed_first (env env' : Env) (file_part : option FileStorage)
    (w w' : World) (i : Z) (path predicted : string) (conf : Q) (t : Z) :
  upload_image env file_part w
    = (Ok (UploadBody i path (JStr predicted) (Finite conf) t, 200%nat), w') →
  (∀ x, x ∈ rows w → (ts x < now env)%Z) →
  query_outcome env' = None →
  let r := {| PlantDiseaseResult.id := i; PlantDiseaseResult.image_path := path;
              PlantDiseaseResult.prediction := JStr predicted;
              PlantDiseaseResult.confidence := Finite conf;
              PlantDiseaseResult.timestamp := t |} in
  let listed := r :: take 19 (order_by_timestamp_desc (rows w)) in
  get_results env' w' = (Ok (ResultsBody listed, 200%nat), w') ∧
  history env' w' = (Ok (Template "history.html" listed, 200%nat), w').
Proof.
  intros (r & Hrows & Hr & _ & Ht)%upload_image_200 Hlt Hq. simpl.
  assert (Hq' : query_latest env' w'
                = (Ok (r :: take 19 (order_by_timestamp_desc (rows w))), w')).
  { unfold query_latest. rewrite Hq, Hrows. unfold order_by_timestamp_desc.
    rewrite foldr_app. simpl. rewrite foldr_insert_desc_newest; [done|].
    intros x Hx. rewrite Hr. simpl. rewrite Ht. by apply Hlt. }
  rewrite <- Hr.
  unfold get_results, history, try_except, mbind, M_bind. by rewrite Hq'.
Qed.

Lemma upload_then_listed_first_witness :
  ∃ listed,
    get_results env_ok world_three_uploads
      = (Ok (ResultsBody listed, 200%nat), world_three_uploads) ∧
    history env_ok world_three_uploads
      = (Ok (Template "history.html" listed, 200%nat), world_three_uploads) ∧
    ids listed = [3; 1; 2]%Z ∧
    map ts listed = [1700000000000001; 1700000000000000; 1700000000000000]%Z.
Proof.
  destruct (upload_then_listed_first env_third env_ok (Some leaf_png)
              world_two_uploads world_three_uploads
              3 "static/uploads/16fd2706-8baf-433b-82eb-8c7fada847da.PNG"
              "Apple_Apple_scab" 1%Q (now env_third) eq_refl) as [Hg Hh].
  - intros x Hx. change (rows world_two_uploads) with
      [stored_row env_ok leaf_png world0 (JStr "Apple_Apple_scab") (Finite 1);
       stored_row env_second leaf_png world_one_upload (JStr "Apple_Apple_scab") (Finite 1)]
      in Hx.
    apply elem_of_cons in Hx as [->|Hx]; [reflexivity|].
    apply list_elem_of_singleton in Hx as ->. reflexivity.
  - reflexivity.
  - eexists. split; [exact Hg|]. split; [exact Hh|]. split; reflexivity.
Defined.

Lemma find_id_stored (table : list PlantDiseaseResult.t) (r : PlantDiseaseResult.t) :
  NoDup (ids table) → r ∈ table →
  List.find (λ x, (PlantDiseaseResult.id x =? PlantDiseaseResult.id r)%Z) table = Some r.
Proof.
  induction table as [|x t IH]; simpl; intros Hnd Hin.
  - by apply elem_of_nil in Hin.
  - apply NoDup_cons in Hnd as [Hx Hnd].
    destruct (Z.eqb_spec (PlantDiseaseResult.id x) (PlantDiseaseResult.id r)) as [Heq|Hne].
    + apply elem_of_cons in Hin as [->|Hin]; [done|].
      exfalso. apply Hx. rewrite Heq. unfold ids. by apply list_elem_of_fmap_2.
    + apply elem_of_cons in Hin as [->|Hin]; [done|]. by apply IH.
Qed.

(** X7. In a table whose ids are distinct, [/api/result/<id>] finds every
    stored row under its own id: status 200 with that row, and nothing
    is changed. *)
Theorem get_result_stored (env : Env) (r : PlantDiseaseResult.t) (w : World) :
  query_outcome env = None →
  NoDup (ids (rows w)) →
  r ∈ rows w →
  get_result env (PlantDiseaseResult.id r) w = (Ok (ResultBody r, 200%nat), w).
Proof.
  intros Hq Hnd Hin.
  unfold get_result, try_except, mbind, M_bind, get_or_404.
  by rewrite Hq, (find_id_stored _ _ Hnd Hin).
Qed.

Lemma get_result_stored_witness :
  ∃ r, rows world_one_upload = [r] ∧
       get_result env_ok (PlantDiseaseResult.id r) world_one_upload
         = (Ok (ResultBody r, 200%nat), world_one_upload).
Proof.
  eexists. split; [reflexivity|].
  apply get_result_stored.
  - reflexivity.
  - unfold ids. simpl. apply NoDup_singleton.
  - simpl. left.
Defined.

(** X9. When the database query raises, the three reading routes change
    nothing: [/history] redirects to the index page with a flashed
    message, and [/api/results] and [/api/result/<id>] answer with
    status 500 and the text of the exception. *)
Theorem reading_routes_query_failure (env : Env) (e : exn) (result_id : Z) (w : World) :
  query_outcome env = Some e →
  history env w
    = (Ok (Redirect "index" "Error loading history. Please try again later.", 302%nat), w) ∧
  get_results env w = (Ok (ErrorBody (str e), 500%nat), w) ∧
  get_result env result_id w = (Ok (ErrorBody (str e), 500%nat), w).
Proof.
  intros Hq.
  unfold history, get_results, get_result, try_except, mbind, M_bind,
    query_latest, get_or_404.
  by rewrite Hq.
Qed.

Lemma reading_routes_query_failure_witness :
  get_results env_db_down world0
    = (Ok (ErrorBody "(sqlite3.OperationalError) unable to open database file", 500%nat),
       world0).
Proof.
  exact (proj1 (proj2 (reading_routes_query_failure env_db_down _ 1 world0 eq_refl))).
Defined.

(** ** Treatment requests: validation *)

(** X10. A treatment request whose JSON body is empty or null, or is an
    object without a [disease] field, is answered with status 400; the
    service is not called and nothing is changed. *)
Theorem get_treatment_requires_disease (env : Env) (data : json) (w : World) :
  (truthy data = false ∨ ∃ items, data = JObj items ∧ dict_get "disease" items = None) →
  get_treatment env (Ok data) w = (Ok (ErrorBody "Disease name is required", 400%nat), w).
Proof.
  intros H.
  assert (Hm : field_missing "disease" data = Ok true).
  { destruct H as [H|(items & -> & H)].
    - unfold field_missing. by rewrite H.
    - rewrite field_missing_object, H. done. }
  run get_treatment. by rewrite Hm.
Qed.

Lemma get_treatment_requires_disease_witness :
  get_treatment env_ok (Ok (JObj [("label", JStr "Apple_Black_rot")])) world0
    = (Ok (ErrorBody "Disease name is required", 400%nat), world0).
Proof.
  apply get_treatment_requires_disease. right. by eexists.
Defined.

(** X11. A treatment request whose [disease] is a JSON array or object
    cannot be a key of the cache: the answer is status 500 with the
    TypeError's text, the service is not called and nothing is changed. *)
Theorem get_treatment_unhashable_disease
    (env : Env) (items : list (string * json)) (d : json) (w : World) :
  dict_get "disease" items = Some d →
  (∃ l, d = JArr l) ∨ (∃ o, d = JObj o) →
  ∃ msg, get_treatment env (Ok (JObj items)) w = (Ok (ErrorBody msg, 500%nat), w) ∧
         make_key d = Raise (TypeError msg).
Proof.
  intros Hd Hun.
  assert (Hm : field_missing "disease" (JObj items) = Ok false)
    by (by rewrite field_missing_object, Hd).
  assert (Hg : py_getitem (JObj items) "disease" = Ok d) by (simpl; by rewrite Hd).
  rewrite (get_treatment_run _ _ _ _ Hm Hg).
  run get_cached_treatment.
  destruct Hun as [[l ->]|[o ->]]; simpl; by eexists.
Qed.

Lemma get_treatment_unhashable_disease_witness :
  ∃ msg,
    get_treatment env_ok (Ok (JObj [("disease", JArr [JStr "Apple_Black_rot"])])) world0
      = (Ok (ErrorBody msg, 500%nat), world0) ∧
    make_key (JArr [JStr "Apple_Black_rot"]) = Raise (TypeError msg).
Proof.
  apply get_treatment_unhashable_disease.
  - reflexivity.
  - left. by eexists.
Defined.

(** ** The treatment cache as a bounded store *)

(** The cache after a call, in each of the ways the call can go. *)
Lemma get_cached_treatment_cache (env : Env) (d : json) (w : World) :
  cache (snd (get_cached_treatment env d w)) = cache w ∨
  (∃ k text, make_key d = Ok k ∧ cache_get k (cache w) = Some text ∧
             cache (snd (get_cached_treatment env d w))
               = (k, text) :: cache_remove k (cache w)) ∨
  (∃ k text, make_key d = Ok k ∧ cache_get k (cache w) = None ∧
             get_treatment_recommendation env (List.length (calls w)) d = Ok text ∧
             cache (snd (get_cached_treatment env d w)) = cache_store k text (cache w)).
Proof.
  run get_cached_treatment.
  destruct (make_key d) as [k|e]; [|by left].
  destruct (cache_get k (cache w)) as [v|] eqn:Hget.
  - right. left. by exists k, v.
  - cbn beta iota.
    destruct (get_treatment_recommendation env _ d) as [v|e] eqn:Hs; [|by left].
    right. right. by exists k, v.
Qed.

Lemma get_treatment_cache (env : Env) (request_json : result json) (w : World) :
  cache (snd (get_treatment env request_json w)) = cache w ∨
  ∃ d, cache (snd (get_treatment env request_json w))
       = cache (snd (get_cached_treatment env d w)).
Proof.
  destruct request_json as [data|e]; [|by left].
  destruct (field_missing "disease" data) as [[|]|e] eqn:Hm.
  - left. run get_treatment. by rewrite Hm.
  - destruct (py_getitem data "disease") as [d|e] eqn:Hd.
    + right. exists d. rewrite (get_treatment_run _ _ _ _ Hm Hd).
      by destruct (get_cached_treatment env d w) as [[t|e] w1].
    + left. run get_treatment. by rewrite Hm, Hd.
  - left. run get_treatment. by rewrite Hm.
Qed.

(** The cache never outgrows its size. *)
Lemma cache_bounded_after (env : Env) (request_json : result json) (w : World) :
  (List.length (cache w) ≤ maxsize)%nat →
  (List.length (cache (snd (get_treatment env request_json w))) ≤ maxsize)%nat.
Proof.
  intros Hlen.
  destruct (get_treatment_cache env request_json w) as [->|[d ->]]; [done|].
  destruct (get_cached_treatment_cache env d w)
    as [->|[(k & t & _ & Hget & ->)|(k & t & _ & _ & _ & ->)]].
  - done.
  - simpl. by rewrite (cache_remove_length _ _ _ Hget).
  - by apply cache_store_length.
Qed.

Lemma cache_get_none (k : key) (c : list (key * string)) :
  cache_get k c = None ↔ k ∉ cached_keys c.
Proof.
  induction c as [|[k' v] rest IH]; simpl.
  - split; [intros _; apply not_elem_of_nil|done].
  - rewrite not_elem_of_cons. destruct (decide (k' = k)) as [->|Hne]; split.
    + done.
    + by intros [? _].
    + intros H. split; [done|]. by apply IH.
    + intros [_ H]. by apply IH.
Qed.

Lemma cache_remove_keys (k k' : key) (c : list (key * string)) :
  k' ∈ cached_keys (cache_remove k c) → k' ∈ cached_keys c.
Proof.
  induction c as [|[k0 v] rest IH]; simpl; [done|].
  destruct (decide (k0 = k)).
  - intros H. by right.
  - simpl. intros [->|H]%elem_of_cons; [left|right; by apply IH].
Qed.

Lemma cache_remove_nodup (k : key) (c : list (key * string)) :
  NoDup (cached_keys c) →
  NoDup (cached_keys (cache_remove k c)) ∧ k ∉ cached_keys (cache_remove k c).
Proof.
  induction c as [|[k0 v] rest IH]; simpl.
  - intros _. split; [constructor|apply not_elem_of_nil].
  - intros [Hk0 Hnd]%NoDup_cons. destruct (decide (k0 = k)) as [->|Hne].
    + done.
    + destruct (IH Hnd) as [IH1 IH2]. simpl. split.
      * apply NoDup_cons. split; [|done]. intros H. by apply cache_remove_keys in H.
      * rewrite not_elem_of_cons. done.
Qed.

Lemma removelast_keys (c : list (key * string)) :
  cached_keys (removelast c) = removelast (cached_keys c).
Proof.
  induction c as [|kv [|kv' rest] IH]; simpl in *; [done..|]. by rewrite IH.
Qed.

Lemma removelast_nodup (l : list key) : NoDup l → NoDup (removelast l).
Proof.
  intros H. rewrite removelast_firstn_len.
  eapply sublist_NoDup; [exact H|apply sublist_take].
Qed.

Lemma removelast_elem (l : list key) (k : key) : k ∈ removelast l → k ∈ l.
Proof.
  rewrite removelast_firstn_len. apply (subseteq_take _ l).
Qed.

(** The cache never holds a label twice. *)
Lemma cache_keys_distinct_after (env : Env) (request_json : result json) (w : World) :
  NoDup (cached_keys (cache w)) →
  NoDup (cached_keys (cache (snd (get_treatment env request_json w)))).
Proof.
  intros Hnd.
  destruct (get_treatment_cache env request_json w) as [->|[d ->]]; [done|].
  destruct (get_cached_treatment_cache env d w)
    as [->|[(k & t & _ & Hget & ->)|(k & t & _ & Hmiss & _ & ->)]].
  - done.
  - destruct (cache_remove_nodup k _ Hnd) as [H1 H2]. simpl. by apply NoDup_cons.
  - unfold cache_store. cbn [cached_keys map fst].
    apply cache_get_none in Hmiss. apply NoDup_cons.
    destruct (maxsize <=? List.length (cache w))%nat; [|by split].
    fold (cached_keys (removelast (cache w))). rewrite removelast_keys. split.
    + intros H. by apply removelast_elem in H.
    + by apply removelast_nodup.
Qed.

Lemma numbered_cache_keys_below (n : nat) (k : key) :
  k ∈ cached_keys (numbered_cache n) → ∃ z, k = KInt z ∧ (0 < z ≤ Z.of_nat n)%Z.
Proof.
  induction n as [|m IH]; simpl.
  - by intros ?%elem_of_nil.
  - intros [->|H]%elem_of_cons.
    + eexists. split; [done|]. lia.
    + destruct (IH H) as (z & -> & Hz). exists z. split; [done|]. lia.
Qed.

Lemma numbered_cache_nodup (n : nat) : NoDup (cached_keys (numbered_cache n)).
Proof.
  induction n as [|m IH]; simpl; [constructor|].
  apply NoDup_cons. split; [|done].
  intros (z & [= <-] & Hz)%numbered_cache_keys_below. lia.
Qed.

Lemma cache_get_remove_ne (k k' : key) (c : list (key * string)) :
  k ≠ k' → cache_get k (cache_remove k' c) = cache_get k c.
Proof.
  intros Hne. induction c as [|[k0 v] rest IH]; simpl; [done|].
  destruct (decide (k0 = k')) as [->|Hk0].
  - by rewrite decide_False.
  - simpl. by rewrite IH.
Qed.

Lemma cache_get_app_last (k k_old : key) (t_old : string) (kept : list (key * string)) :
  k ≠ k_old → cache_get k (kept ++ [(k_old, t_old)]) = cache_get k kept.
Proof.
  intros Hne. induction kept as [|[k0 v] rest IH]; simpl.
  - by rewrite decide_False.
  - by rewrite IH.
Qed.

(** X13. A full cache evicts its least recently used label: when 100
    distinct labels are cached and the service answers for a new one,
    the new text is stored at the front, the entry at the end is dropped
    and the others stay in order, so the dropped label is no longer
    cached. *)
Theorem get_treatment_evicts_least_recent
    (env : Env) (data d : json) (k k_old : key) (text t_old : string)
    (kept : list (key * string)) (w : World) :
  field_missing "disease" data = Ok false →
  py_getitem data "disease" = Ok d →
  make_key d = Ok k →
  cache w = (kept ++ [(k_old, t_old)])%list →
  List.length (cache w) = maxsize →
  NoDup (cached_keys (cache w)) →
  cache_get k (cache w) = None →
  get_treatment_recommendation env (List.length (calls w)) d = Ok text →
  ∃ w',
    get_treatment env (Ok data) w = (Ok (TreatmentBody text, 200%nat), w') ∧
    cache w' = (k, text) :: kept ∧
    cache_get k_old (cache w') = None ∧
    calls w' = (calls w ++ [d])%list.
Proof.
  intros Hm Hd Hk Hc Hlen Hnd Hmiss Hs.
  rewrite (get_treatment_run _ _ _ _ Hm Hd).
  run get_cached_treatment. rewrite Hk, Hmiss. cbn beta iota. rewrite Hs.
  eexists. split; [reflexivity|].
  unfold set_treatment_cache, log_service_call. cbn [treatment_cache service_calls].
  assert (Hst : cache_store k text (cache w) = (k, text) :: kept).
  { unfold cache_store. rewrite Hlen, Nat.leb_refl, Hc. by rewrite removelast_last. }
  rewrite Hst. split_and!; [done| |done].
  rewrite Hc in Hnd, Hmiss. unfold cached_keys in Hnd. rewrite map_app in Hnd.
  apply NoDup_app in Hnd as (_ & Hdisj & _).
  simpl. rewrite decide_False.
  - apply cache_get_none. intros Hin. apply (Hdisj k_old Hin). simpl. left.
  - intros ->. apply cache_get_none in Hmiss. apply Hmiss.
    unfold cached_keys. rewrite map_app. apply elem_of_app. right. simpl. left.
Qed.

Lemma get_treatment_evicts_least_recent_witness :
  ∃ w',
    get_treatment env_ok (treatment_request "Corn_Common_rust") world_full_cache
      = (Ok (TreatmentBody "Remove and destroy infected leaves.", 200%nat), w') ∧
    cache w' = (KStr "Corn_Common_rust", "Remove and destroy infected leaves.")
               :: removelast (numbered_cache 100) ∧
    cache_get (KInt 1) (cache w') = None ∧
    calls w' = [JStr "Corn_Common_rust"].
Proof.
  apply (get_treatment_evicts_least_recent env_ok
           (JObj [("disease", JStr "Corn_Common_rust")]) (JStr "Corn_Common_rust")
           (KStr "Corn_Common_rust") (KInt 1) "Remove and destroy infected leaves." "1"
           (removelast (numbered_cache 100)) world_full_cache).
  - reflexivity.
  - reflexivity.
  - reflexivity.
  - vm_compute. reflexivity.
  - vm_compute. reflexivity.
  - apply numbered_cache_nodup.
  - vm_compute. reflexivity.
  - reflexivity.
Defined.

(** X14. Below its size the cache forgets nothing: a text cached for a
    label is still cached for it after any request, however the request
    ends, as long as the cache held fewer than 100 entries. *)
Theorem get_treatment_keeps_cached_texts
    (env : Env) (request_json : result json) (k : key) (text : string) (w : World) :
  (List.length (cache w) < maxsize)%nat →
  cache_get k (cache w) = Some text →
  cache_get k (cache (snd (get_treatment env request_json w))) = Some text.
Proof.
  intros Hlen Hget.
  destruct (get_treatment_cache env request_json w) as [->|[d ->]]; [done|].
  destruct (get_cached_treatment_cache env d w)
    as [->|[(k' & t & _ & Hget' & ->)|(k' & t & _ & Hmiss & _ & ->)]].
  - done.
  - simpl. destruct (decide (k' = k)) as [->|Hne]; [congruence|].
    by rewrite cache_get_remove_ne.
  - unfold cache_store. apply Nat.leb_gt in Hlen. rewrite Hlen. simpl.
    destruct (decide (k' = k)) as [->|Hne]; [congruence|done].
Qed.

Lemma get_treatment_keeps_cached_texts_witness :
  cache_get (KStr "Apple_Black_rot")
    (cache (snd (get_treatment env_flaky (treatment_request "Corn_Common_rust")
                   world_one_treatment)))
  = Some "Remove and destroy infected leaves.".
Proof.
  apply get_treatment_keeps_cached_texts.
  - vm_compute. lia.
  - reflexivity.
Defined.

(** ** Chat: the session *)

(** The chat route on an object body that has a message. *)
Lemma handle_chat_with_message (env : Env) (items : list (string * json))
    (message : json) (w : World) :
  dict_get "message" items = Some message →
  handle_chat env (Ok (JObj items)) w =
    match chat_with_gemini env
            (default (JStr (default (uuid4 env) (session_id w))) (dict_get "session_id" items))
            message with
    | Ok reply =>
        (Ok (ChatBody reply
               (default (JStr (default (uuid4 env) (session_id w)))
                        (dict_get "session_id" items)), 200%nat),
         if session_id w is Some _ then w
         else set_session_id (Some (default (uuid4 env) (session_id w))) w)
    | Raise e =>
        (Ok (ErrorBody (str e), 500%nat),
         if session_id w is Some _ then w
         else set_session_id (Some (default (uuid4 env) (session_id w))) w)
    end.
Proof.
  intros Hm. run handle_chat.
  rewrite field_missing_object, Hm. cbn [bool_decide decide_rel py_getitem py_in].
  rewrite Hm.
  destruct (session_id w) as [held|] eqn:Hs;
    destruct (dict_get "session_id" items) as [given|] eqn:Hg; simpl;
    rewrite ?Hs, ?Hg; simpl;
    by destruct (chat_with_gemini env _ message).
Qed.

(** X16. The session keeps its chat id: after a chat request with a
    message, whether the service replied or raised, the session holds
    an id (the one it had, or a fresh one), and a later request without
    a [session_id] in its body is sent under that same id; no new id is
    generated. *)
Theorem handle_chat_session_continues
    (env env' : Env) (items items' : list (string * json)) (message message' : json)
    (w : World) :
  dict_get "message" items = Some message →
  dict_get "message" items' = Some message' →
  dict_get "session_id" items' = None →
  let w1 := snd (handle_chat env (Ok (JObj items)) w) in
  let own := default (uuid4 env) (session_id w) in
  session_id w1 = Some own ∧
  handle_chat env' (Ok (JObj items')) w1 =
    match chat_with_gemini env' (JStr own) message' with
    | Ok reply => (Ok (ChatBody reply (JStr own), 200%nat), w1)
    | Raise e => (Ok (ErrorBody (str e), 500%nat), w1)
    end.
Proof.
  intros Hm Hm' Hs'. simpl.
  assert (Hw1 : session_id (snd (handle_chat env (Ok (JObj items)) w))
                = Some (default (uuid4 env) (session_id w))).
  { rewrite (handle_chat_with_message _ _ _ _ Hm).
    destruct (chat_with_gemini env _ message); simpl;
      by destruct (session_id w) eqn:Hs. }
  split; [exact Hw1|].
  rewrite (handle_chat_with_message _ _ _ _ Hm'), Hs', Hw1. simpl.
  by destruct (chat_with_gemini env' _ message').
Qed.

Lemma handle_chat_session_continues_witness :
  let w1 := snd (handle_chat env_chat_down (Ok (JObj [("message", JStr "Is it contagious?")]))
                   world0) in
  session_id w1 = Some (uuid4 env_chat_down) ∧
  handle_chat env_second (Ok (JObj [("message", JStr "And now?")])) w1
    = (Ok (ChatBody "Hello, how can I help?" (JStr (uuid4 env_chat_down)), 200%nat), w1).
Proof.
  exact (handle_chat_session_continues env_chat_down env_second
           [("message", JStr "Is it contagious?")] [("message", JStr "And now?")]
           (JStr "Is it contagious?") (JStr "And now?") world0 eq_refl eq_refl eq_refl).
Defined.

(** ** The chat page *)

(** X17. The chat page opened with a non-empty [disease_id]: when the
    query raises, or no stored row has that key, nothing is changed and
    the browser is sent back to the index page with a flashed message;
    when a row of a table with distinct ids has that key, the page is
    rendered with that row. *)
Theorem chat_page_lookup (env : Env) (as_key : string → option Z) (text : string)
    (w : World) :
  text ≠ "" →
  (∀ e, query_outcome env = Some e →
        chat env as_key (Some text) w
          = (Ok (Redirect "index" "Error loading chat. Please try again later.", 302%nat), w)) ∧
  (query_outcome env = None →
   (∀ r, r ∈ rows w → as_key text ≠ Some (PlantDiseaseResult.id r)) →
   chat env as_key (Some text) w
     = (Ok (Redirect "index" "Disease result not found.", 302%nat), w)) ∧
  (∀ r, query_outcome env = None → NoDup (ids (rows w)) → r ∈ rows w →
        as_key text = Some (PlantDiseaseResult.id r) →
        chat env as_key (Some text) w = (Ok (Template "chat.html" [r], 200%nat), w)).
Proof.
  intros Hne. apply String.eqb_neq in Hne.
  unfold chat, try_except, mbind, M_bind, filter_by_id_first. rewrite Hne.
  cbv beta iota delta [negb]. split_and!.
  - intros e ->. reflexivity.
  - intros -> Habs. destruct (as_key text) as [key|]; [|done].
    simpl. rewrite find_id_none; [done|].
    intros r Hr Heq. by apply (Habs r Hr); rewrite Heq.
  - intros r -> Hnd Hin ->. simpl. by rewrite (find_id_stored _ _ Hnd Hin).
Qed.

Lemma chat_page_lookup_witness :
  chat env_ok decimal_key (Some "7") world_one_upload
    = (Ok (Redirect "index" "Disease result not found.", 302%nat), world_one_upload).
Proof.
  refine (proj1 (proj2 (chat_page_lookup env_ok decimal_key "7" world_one_upload _))
            eq_refl _).
  - discriminate.
  - intros r Hr. simpl in Hr. apply list_elem_of_singleton in Hr as ->. discriminate.
Defined.

(** Without a [disease_id], or with an empty one, the page is rendered
    with no result and the table is not read. *)
Example chat_page_plain (env : Env) (as_key : string → option Z) (w : World) :
  chat env as_key None w = (Ok (Template "chat.html" [], 200%nat), w) ∧
  chat env as_key (Some "") w = (Ok (Template "chat.html" [], 200%nat), w).
Proof. by split. Qed.

(** ** Loading the model *)

(** X18. The model is loaded once: after a call of [load_model] that
    returned, both the processor and the model are in place, and every
    later call returns at once, without loading and without changing
    anything, even where loading would now fail. *)
Theorem load_model_once (env env' : Env) (w w' : World) :
  load_model env w = (Ok tt, w') →
  processor_loaded w' = true ∧ model_loaded w' = true ∧
  load_model env' w' = (Ok tt, w').
Proof.
  unfold load_model.
  destruct (processor_loaded w) eqn:Hp, (model_loaded w) eqn:Hm; simpl.
  - intros [= <-]. by rewrite Hp, Hm.
  - destruct (load_processor env); [done|]. destruct (load_classifier env); [done|].
    intros [= <-]. done.
  - destruct (load_processor env); [done|]. destruct (load_classifier env); [done|].
    intros [= <-]. done.
  - destruct (load_processor env); [done|]. destruct (load_classifier env); [done|].
    intros [= <-]. done.
Qed.

Lemma load_model_once_witness :
  ∃ w', load_model env_ok world0 = (Ok tt, w') ∧
        load_model env_no_processor w' = (Ok tt, w').
Proof.
  eexists. split; [reflexivity|].
  exact (proj2 (proj2 (load_model_once env_ok env_no_processor world0 _ eq_refl))).
Defined.

(** X19. A load that fails half way is started over: when the processor
    loads and the model does not, [load_model] raises with the processor
    in place and the model missing, and the next call loads the
    processor again, so it raises if that now fails. *)
Theorem load_model_retries_in_full (env env' : Env) (e e' : exn) (w : World) :
  model_loaded w = false →
  load_processor env = None →
  load_classifier env = Some e →
  load_processor env' = Some e' →
  ∃ w1, load_model env w = (Raise e, w1) ∧
        processor_loaded w1 = true ∧ model_loaded w1 = false ∧
        load_model env' w1 = (Raise e', w1).
Proof.
  intros Hm Hp Hc Hp'. unfold load_model.
  rewrite Hm, Hp, Hc, orb_true_r. eexists. split; [reflexivity|].
  simpl. by rewrite Hm, Hp'.
Qed.

Lemma load_model_retries_in_full_witness :
  ∃ w1, load_model env_no_classifier world0
          = (Raise (ExternalError "D:/project3 does not appear to have a file named config.json"),
             w1) ∧
        processor_loaded w1 = true ∧ model_loaded w1 = false ∧
        load_model env_no_processor w1
          = (Raise (ExternalError "Can't load image processor for 'D:/project3'"), w1).
Proof.
  apply load_model_retries_in_full; reflexivity.
Defined.

(** ** Detection: when it answers and what it answers *)

(** X20. [detect_disease] returns exactly when the model is in place or
    loads, the model gives a row of logits for the image, softmax gives
    a non-empty row of scores for it, and the config file holds a JSON
    object whose [id2label] is an object or is missing; in every other
    case it raises. *)
Theorem detect_disease_returns_iff (env : Env) (path : string) (w : World) :
  (∃ predicted confidence w',
     detect_disease env path w = (Ok (predicted, confidence), w')) ↔
  fst (load_model env w) = Ok tt ∧
  ∃ logits items,
    run_model env path = Ok logits ∧ softmax env logits ≠ [] ∧
    read_config env = Ok (JObj items) ∧
    (dict_get "id2label" items = None ∨
     ∃ labels, dict_get "id2label" items = Some (JObj labels)).
Proof.
  split.
  - intros (predicted & confidence & w' & Hrun).
    split.
    + revert Hrun. run detect_disease.
      by destruct (load_model env w) as [[[]|e] w1].
    + apply detect_disease_ok in Hrun
        as (logits & items & labels & top & Hrun & Htop & _ & Hcfg & Hl & _).
      exists logits, items. split_and!; [done| |done|].
      * by eapply argmax_ok_nonempty.
      * destruct (dict_get "id2label" items) as [v|]; [|by left].
        right. exists labels. simpl in Hl. by rewrite Hl.
  - intros (Hload & logits & items & Hrun & Hne & Hcfg & Hl).
    assert (Hl' : ∃ labels, default (JObj []) (dict_get "id2label" items) = JObj labels).
    { destruct Hl as [->|[labels ->]]; by eexists. }
    destruct Hl' as [labels Hl'].
    destruct (detect_disease_run env path w logits items labels Hload Hrun Hne Hcfg Hl')
      as (top & conf & Hd & _).
    by eexists _, _, _.
Qed.

(** X23. Detection changes nothing but the loaded model: the upload
    directory, the table, the treatment cache, the log of service calls
    and the session are as before, and a processor or model that was in
    place stays in place. *)
Theorem detect_disease_only_loads (env : Env) (path : string) (w : World) :
  uploads (snd (detect_disease env path w)) = uploads w ∧
  rows (snd (detect_disease env path w)) = rows w ∧
  cache (snd (detect_disease env path w)) = cache w ∧
  calls (snd (detect_disease env path w)) = calls w ∧
  session_id (snd (detect_disease env path w)) = session_id w ∧
  (processor_loaded w && model_loaded w = true →
   snd (detect_disease env path w) = w).
Proof.
  run detect_disease. unfold item_at, load_model.
  destruct (processor_loaded w) eqn:Hp, (model_loaded w) eqn:Hm; simpl;
    destruct (load_processor env), (load_classifier env); simpl;
    destruct (run_model env path) as [logits|?]; simpl;
    try destruct (argmax (softmax env logits)) as [top|?]; simpl;
    try destruct (softmax env logits !! top); simpl;
    try destruct (read_config env) as [cfg|?]; simpl;
    try destruct (class_name cfg top); simpl; done.
Qed.

(** ** The heuristic classifier: what it can answer *)

(** X24. Whatever the features and the random source, an index that the
    classifier returns is a valid index of [CLASSES], and the class is
    one of Tomato_Early_blight, Cherry_Powdery_mildew and
    Tomato_Late_blight, as the comments on the three rules say. *)
Theorem simple_disease_classifier_names (rng : Random) (features : list Q) (n : nat) :
  simple_disease_classifier rng features = Ok n →
  ∃ name, CLASSES !! n = Some name ∧
          name ∈ ["Tomato_Early_blight"; "Cherry_Powdery_mildew"; "Tomato_Late_blight"].
Proof.
  intros H. apply simple_disease_classifier_returns in H.
  apply elem_of_cons in H as [->|H]; [eexists; split; [reflexivity|left]|].
  apply elem_of_cons in H as [->|H];
    [eexists; split; [reflexivity|right; left]|].
  apply list_elem_of_singleton in H as ->.
  eexists. split; [reflexivity|]. right. right. left.
Qed.

Lemma simple_disease_classifier_names_witness :
  ∃ name, CLASSES !! 30%nat = Some name ∧
          name ∈ ["Tomato_Early_blight"; "Cherry_Powdery_mildew"; "Tomato_Late_blight"].
Proof.
  exact (simple_disease_classifier_names
           {| random_random := 0; random_choice := λ _, 0%nat; random_randint := λ a _, a |}
           yellow_spots 30 eq_refl).
Defined.

(** X25. The classifier runs out of features only on short vectors: an
    IndexError means that fewer than ten features were given; with ten
    or more, every subscript is in range. *)
Theorem simple_disease_classifier_index_error
    (rng : Random) (features : list Q) (msg : string) :
  simple_disease_classifier rng features = Raise (IndexError msg) →
  (List.length features < 10)%nat.
Proof.
  do 10 (destruct features as [|? features]; [simpl; lia|]).
  unfold simple_disease_classifier, mbind, result_bind, rbind.
  change (global "random") with (@Raise unit (NameError "random")).
  cbn [take drop index lookup list_lookup].
  repeat match goal with
         | |- context [if ?x then _ else _] => destruct x
         end; done.
Qed.

Lemma simple_disease_classifier_index_error_witness :
  (List.length (@nil Q) < 10)%nat.
Proof.
  exact (simple_disease_classifier_index_error
           {| random_random := 0; random_choice := λ _, 0%nat; random_randint := λ a _, a |}
           [] "index 0 is out of bounds for axis 0 with size 0" eq_refl).
Defined.

(** Nine features are not enough when the first rule reaches for the
    second texture feature. *)
Example simple_disease_classifier_nine_features (rng : Random) :
  simple_disease_classifier rng [5 # 10; 0; 0; 0; 0; 0; 0; 0; 0]%Q
    = Raise (IndexError "index 1 is out of bounds for axis 0 with size 1").
Proof. reflexivity. Qed.

(** ** Sample predictions *)

Lemma scan_locations_nonempty (files : Files) (locations : list string)
    (samples : list (json * float)) :
  samples ≠ [] → scan_locations files locations samples ≠ [].
Proof.
  intros Hne. induction locations as [|loc rest IH]; simpl; [done|].
  destruct (read_json files loc) as [content|]; [|done].
  by destruct (load_file files content) as [[|entry more]|e].
Qed.

(** X27. [load_sample_predictions] always has predictions to offer:
    whatever the files hold, the list it returns is not empty. *)
Theorem load_sample_predictions_nonempty (files : Files) :
  load_sample_predictions files ≠ [].
Proof. by apply scan_locations_nonempty. Qed.

Lemma scan_locations_passed_over (files : Files) (locations : list string)
    (samples : list (json * float)) :
  (∀ loc, loc ∈ locations → passed_over files loc) →
  scan_locations files locations samples = samples.
Proof.
  induction locations as [|loc rest IH]; intros Hall; simpl; [done|].
  assert (Hrest : scan_locations files rest samples = samples).
  { apply IH. intros l Hl. apply Hall. by right. }
  specialize (Hall loc ltac:(left)). unfold passed_over in Hall.
  destruct (read_json files loc) as [content|]; [|done].
  by destruct Hall as [->|[e ->]].
Qed.

(** X28. When none of the three locations gives a pair (the file is
    absent, or reading it raises, or none of its items has both keys),
    the built-in samples are returned, and an exception in one file
    never escapes. *)
Theorem load_sample_predictions_defaults (files : Files) :
  (∀ loc, loc ∈ possible_locations → passed_over files loc) →
  load_sample_predictions files = sample_defaults.
Proof. apply scan_locations_passed_over. Qed.

Lemma load_sample_predictions_defaults_witness :
  load_sample_predictions files_null_confidence = sample_defaults.
Proof.
  apply load_sample_predictions_defaults.
  intros loc Hloc. unfold possible_locations in Hloc.
  repeat (apply elem_of_cons in Hloc as [->|Hloc]; [vm_compute; eauto|]).
  by apply elem_of_nil in Hloc.
Defined.

(** X29. The first location that gives pairs wins: when the locations
    before it are passed over, its pairs are returned, whatever the
    later locations hold. *)
Theorem load_sample_predictions_first_usable
    (files : Files) (before after : list string) (location : string)
    (content : result json) (loaded : list (json * float)) :
  possible_locations = (before ++ location :: after)%list →
  (∀ loc, loc ∈ before → passed_over files loc) →
  read_json files location = Some content →
  load_file files content = Ok loaded →
  loaded ≠ [] →
  load_sample_predictions files = loaded.
Proof.
  intros Hsplit Hbefore Hread Hload Hne.
  unfold load_sample_predictions. rewrite Hsplit.
  generalize sample_defaults. clear Hsplit.
  induction before as [|loc rest IH]; intros samples; simpl.
  - rewrite Hread, Hload. by destruct loaded.
  - assert (Hloc : passed_over files loc) by (apply Hbefore; left).
    unfold passed_over in Hloc.
    assert (Hrest : ∀ l, l ∈ rest → passed_over files l)
      by (intros l Hl; apply Hbefore; by right).
    destruct (read_json files loc) as [c|]; [|by apply IH].
    destruct Hloc as [->|[e ->]]; by apply IH.
Qed.

Lemma load_sample_predictions_first_usable_witness :
  load_sample_predictions files_second_only = [(JStr "Corn_Common_rust", Finite 1)].
Proof.
  apply (load_sample_predictions_first_usable files_second_only
           ["attached_assets/detection_results.json"]
           ["detection_results.json"]
           "static/data/detection_results.json"
           (Ok (JArr [ JObj [("prediction", JStr "Tomato_Healthy")];
                       JObj [("prediction", JStr "Corn_Common_rust"); ("confidence", JNum 1)] ]))).
  - reflexivity.
  - intros loc Hloc. apply list_elem_of_singleton in Hloc as ->. exact I.
  - reflexivity.
  - reflexivity.
  - discriminate.
Defined.

Lemma load_items_app (files : Files) (items more : list json) (loaded : list (json * float)) :
  load_items files items = Ok loaded →
  load_items files (items ++ more) =
    (rest ← load_items files more; Ok (loaded ++ rest)%list).
Proof.
  revert loaded. induction items as [|item t IH]; intros loaded; simpl.
  - intros [= <-]. unfold mbind, result_bind, rbind.
    by destruct (load_items files more).
  - unfold mbind, result_bind, rbind in *.
    destruct (py_in "prediction" item) as [has|e]; [|done].
    destruct (if has then py_in "confidence" item else Ok false) as [both|e]; [|done].
    destruct (if both then _ else _) as [entry|e]; [|done].
    destruct (load_items files t) as [l|e]; [|done].
    intros [= <-]. rewrite (IH l eq_refl).
    destruct (load_items files more) as [r|e]; [|done].
    by rewrite app_assoc.
Qed.

(** X30. One item that cannot be converted costs the whole file: when an
    item has both keys and [float] raises on its confidence, the loop
    over the items raises, also when items before it were read without
    trouble and whatever comes after it. *)
Theorem load_items_bad_confidence
    (files : Files) (before after : list json) (fields : list (string * json))
    (prediction confidence : json) (loaded : list (json * float)) (e : exn) :
  load_items files before = Ok loaded →
  dict_get "prediction" fields = Some prediction →
  dict_get "confidence" fields = Some confidence →
  py_float files confidence = Raise e →
  load_items files (before ++ JObj fields :: after) = Raise e.
Proof.
  intros Hbefore Hp Hc Hf.
  rewrite (load_items_app _ _ _ _ Hbefore). simpl.
  unfold mbind, result_bind, rbind. rewrite Hp. simpl. rewrite Hc. simpl.
  by rewrite Hf.
Qed.

Lemma load_items_bad_confidence_witness :
  load_items files_null_confidence
    ([JObj [("prediction", JStr "Corn_Common_rust"); ("confidence", JNum 1)]]
     ++ JObj [("prediction", JStr "Tomato_Healthy"); ("confidence", JNull)] :: [])
  = Raise (TypeError "float() argument must be a string or a real number, not 'NoneType'").
Proof.
  apply (load_items_bad_confidence files_null_confidence _ _ _
           (JStr "Tomato_Healthy") JNull [(JStr "Corn_Common_rust", Finite 1)]);
    reflexivity.
Defined.

(** An integer of more than 53 bits is rounded, to the even neighbour
    when it lies half way. *)
Example float_of_int_rounds :
  float_of_int (2 ^ 53 + 1) = Ok (Finite (inject_Z (2 ^ 53))) ∧
  float_of_int (2 ^ 53 + 3) = Ok (Finite (inject_Z (2 ^ 53 + 4))) ∧
  float_of_int (- (2 ^ 53 + 3)) = Ok (Finite (inject_Z (- (2 ^ 53 + 4)))).
Proof. by vm_compute. Qed.

(** The largest double, and the first integer that is too large. *)
Example float_of_int_overflow :
  float_of_int (2 ^ 1024 - 2 ^ 970 - 1) = Ok (Finite (inject_Z (2 ^ 1024 - 2 ^ 971))) ∧
  float_of_int (2 ^ 1024 - 2 ^ 970)
    = Raise (OverflowError "int too large to convert to float").
Proof. by vm_compute. Qed.

(** A confidence of [10 ** 400] in the only file: [float] raises, the
    file is passed over, and the built-in samples are returned. *)
Example load_sample_predictions_huge_confidence :
  load_items files_huge_confidence
    [JObj [("prediction", JStr "Corn_Common_rust"); ("confidence", JNum (10 ^ 400))]]
    = Raise (OverflowError "int too large to convert to float") ∧
  load_sample_predictions files_huge_confidence = sample_defaults.
Proof. by vm_compute. Qed.

(** ** Colour features *)

Lemma np_divide_some (a b : Q) : ¬ (b == 0)%Q → np_divide a b = Some (a / b)%Q.
Proof.
  intros Hb. unfold np_divide.
  destruct (Qeq_bool b 0) eqn:Hq; [|done].
  by apply Qeq_bool_iff in Hq.
Qed.

Lemma share_in_unit_range (count size : nat) :
  (count ≤ size)%nat → (0 < size)%nat →
  (0 <= inject_Z (Z.of_nat count) / inject_Z (Z.of_nat size) <= 1)%Q.
Proof.
  intros Hle Hpos.
  assert (Hs : (0 < inject_Z (Z.of_nat size))%Q).
  { change 0%Q with (inject_Z 0). rewrite <- Zlt_Qlt. lia. }
  split.
  - apply Qle_shift_div_l; [done|]. rewrite Qmult_0_l.
    change 0%Q with (inject_Z 0). rewrite <- Zle_Qle. lia.
  - apply Qle_shift_div_r; [done|]. rewrite Qmult_1_l.
    rewrite <- Zle_Qle. lia.
Qed.

Lemma channel_sum_bounds (i : nat) (pixels : list pixel) :
  Forall uint8_pixel pixels →
  (0 <= fold_right Qplus 0 (map (λ px : pixel,
           let '(p0, p1, p2) := px in
           inject_Z (match i with O => p0 | S O => p1 | _ => p2 end)) pixels)
     <= 255 * inject_Z (Z.of_nat (List.length pixels)))%Q.
Proof.
  induction 1 as [|[[p0 p1] p2] rest Hpx _ IH].
  - simpl. split; [apply Qle_refl|]. rewrite Qmult_0_r. apply Qle_refl.
  - cbn [map fold_right List.length]. set (v := match i with O => p0 | S O => p1 | _ => p2 end).
    assert (Hv : (0 ≤ v ≤ 255)%Z).
    { unfold uint8_pixel in Hpx. subst v. destruct i as [|[|i]]; lia. }
    destruct IH as [IH0 IH1].
    rewrite Nat2Z.inj_succ. unfold Z.succ. rewrite inject_Z_plus.
    assert (H0 : (0 <= inject_Z v)%Q)
      by (change 0%Q with (inject_Z 0); rewrite <- Zle_Qle; lia).
    assert (H1 : (inject_Z v <= 255)%Q)
      by (change 255%Q with (inject_Z 255); rewrite <- Zle_Qle; lia).
    split.
    + exact (Qplus_le_compat 0 _ 0 _ H0 IH0).
    + rewrite Qmult_plus_distr_r, Qplus_comm.
      apply Qplus_le_compat; [done|]. by rewrite Qmult_1_r.
Qed.

Lemma channel_mean_in_unit_range (i : nat) (hsv : image) :
  Forall uint8_pixel (concat hsv) → concat hsv ≠ [] →
  ∃ m, np_mean (channel i hsv) = Some m ∧ (0 <= m / 255 <= 1)%Q.
Proof.
  intros Hpx Hne. unfold channel.
  pose proof (channel_sum_bounds i _ Hpx) as [H0 H1].
  set (values := map _ (concat hsv)) in *.
  assert (Hlen : List.length values = List.length (concat hsv))
    by (subst values; apply length_map).
  assert (Hpos : (0 < List.length (concat hsv))%nat)
    by (destruct (concat hsv); [done|simpl; lia]).
  assert (Hn : (0 < inject_Z (Z.of_nat (List.length values)))%Q).
  { change 0%Q with (inject_Z 0). rewrite <- Zlt_Qlt. lia. }
  unfold np_mean. destruct values as [|v rest] eqn:Hv; [simpl in Hlen; lia|].
  eexists. split; [reflexivity|]. rewrite <- Hv in *.
  assert (H255 : (0 < 255)%Q) by reflexivity.
  split.
  - apply Qle_shift_div_l; [done|]. rewrite Qmult_0_l.
    apply Qle_shift_div_l; [done|]. by rewrite Qmult_0_l.
  - apply Qle_shift_div_r; [done|]. rewrite Qmult_1_l.
    apply Qle_shift_div_r; [done|]. by rewrite Hlen.
Qed.

(** X26. On an image that is not empty and that the conversion turns
    into 8-bit HSV pixels of the same number, [extract_color_features]
    returns exactly eight features, five shares and three means, and
    every one of them lies between 0 and 1. *)
Theorem extract_color_features_in_unit_range
    (cvtColor : image → result image) (img hsv : image) :
  cvtColor img = Ok hsv →
  List.length (concat hsv) = shape_product img →
  (0 < shape_product img)%nat →
  Forall uint8_pixel (concat hsv) →
  ∃ features,
    extract_color_features cvtColor img = Ok (map Some features) ∧
    List.length features = 8%nat ∧
    Forall (λ q, 0 <= q <= 1)%Q features.
Proof.
  intros Hcvt Hshape Hpos Hpx.
  assert (Hne : concat hsv ≠ []).
  { intros Hnil. rewrite Hnil in Hshape. simpl in Hshape. lia. }
  assert (Hsize : ¬ (inject_Z (Z.of_nat (shape_product img)) == 0)%Q).
  { change 0%Q with (inject_Z 0). rewrite inject_Z_injective. lia. }
  destruct (channel_mean_in_unit_range 0 hsv Hpx Hne) as (m0 & Hm0 & Hr0).
  destruct (channel_mean_in_unit_range 1 hsv Hpx Hne) as (m1 & Hm1 & Hr1).
  destruct (channel_mean_in_unit_range 2 hsv Hpx Hne) as (m2 & Hm2 & Hr2).
  unfold extract_color_features, mbind at 1, result_bind, rbind. rewrite Hcvt.
  cbn [map DISEASE_INDICATORS]. rewrite Hm0, Hm1, Hm2.
  rewrite !(np_divide_some _ _ Hsize).
  eexists [_; _; _; _; _; _; _; _]. split; [reflexivity|]. split; [reflexivity|].
  assert (Hshare : ∀ lower upper,
            (0 <= inject_Z (Z.of_nat (List.length
                     (filter (λ m, m = true) (map (in_range lower upper) (concat hsv)))))
                  / inject_Z (Z.of_nat (shape_product img)) <= 1)%Q).
  { intros lower upper. apply share_in_unit_range; [|done].
    rewrite <- Hshape. etrans; [apply length_filter|]. by rewrite length_map. }
  repeat (apply Forall_cons; split; [first [apply Hshare|done]|]).
  apply Forall_nil_2.
Qed.

Lemma extract_color_features_in_unit_range_witness :
  ∃ features,
    extract_color_features (λ _, Ok green_pixel_hsv) green_pixel = Ok (map Some features) ∧
    List.length features = 8%nat ∧
    Forall (λ q, 0 <= q <= 1)%Q features.
Proof.
  apply (extract_color_features_in_unit_range (λ _, Ok green_pixel_hsv)
           green_pixel green_pixel_hsv).
  - reflexivity.
  - reflexivity.
  - unfold shape_product, green_pixel. simpl. lia.
  - unfold green_pixel_hsv. simpl. apply Forall_cons.
    split; [unfold uint8_pixel; lia|apply Forall_nil_2].
Defined.

(** ** Listing and storing, completed *)

(** X8. The listing leaves out nothing it has room for: when the query
    succeeds, [/api/results] returns min(20, number of stored rows)
    rows, and with at most 20 stored rows it returns every one of them. *)
Theorem get_results_complete (env : Env) (w : World) :
  query_outcome env = None →
  ∃ results,
    get_results env w = (Ok (ResultsBody results, 200%nat), w) ∧
    List.length results = (20 `min` List.length (rows w))%nat ∧
    ((List.length (rows w) ≤ 20)%nat → results ≡ₚ rows w).
Proof.
  intros Hq. exists (take 20 (order_by_timestamp_desc (rows w))).
  pose proof (order_by_timestamp_desc_perm (rows w)) as Hperm.
  split_and!.
  - unfold get_results, try_except, mbind, M_bind, query_latest. by rewrite Hq.
  - rewrite length_take. by rewrite (Permutation_length Hperm).
  - intros Hlen. rewrite take_ge; [done|]. by rewrite (Permutation_length Hperm).
Qed.

Lemma get_results_complete_witness :
  ∃ results,
    get_results env_ok world_two_uploads = (Ok (ResultsBody results, 200%nat), world_two_uploads) ∧
    List.length results = (20 `min` List.length (rows world_two_uploads))%nat ∧
    ((List.length (rows world_two_uploads) ≤ 20)%nat → results ≡ₚ rows world_two_uploads).
Proof. apply get_results_complete. reflexivity. Defined.

(** X15. What the service answers is stored under the label: when a
    label is not cached and the service returns a text, the request is
    answered with status 200 and that text, the service has been called
    once more, with the label, and the text is now cached for it. *)
Theorem get_treatment_miss_stores
    (env : Env) (data d : json) (k : key) (text : string) (w : World) :
  field_missing "disease" data = Ok false →
  py_getitem data "disease" = Ok d →
  make_key d = Ok k →
  cache_get k (cache w) = None →
  get_treatment_recommendation env (List.length (calls w)) d = Ok text →
  ∃ w',
    get_treatment env (Ok data) w = (Ok (TreatmentBody text, 200%nat), w') ∧
    calls w' = (calls w ++ [d])%list ∧
    cache_get k (cache w') = Some text ∧
    uploads w' = uploads w ∧ rows w' = rows w.
Proof.
  intros Hm Hd Hk Hmiss Hs.
  rewrite (get_treatment_run _ _ _ _ Hm Hd).
  run get_cached_treatment. rewrite Hk, Hmiss. cbn beta iota. rewrite Hs.
  eexists. split; [reflexivity|].
  unfold set_treatment_cache, log_service_call.
  cbn [treatment_cache service_calls uploads rows].
  split_and!; [done| |done..].
  unfold cache_store. simpl. by rewrite decide_True.
Qed.

Lemma get_treatment_miss_stores_witness :
  ∃ w',
    get_treatment env_ok (treatment_request "Apple_Black_rot") world0
      = (Ok (TreatmentBody "Remove and destroy infected leaves.", 200%nat), w') ∧
    calls w' = [JStr "Apple_Black_rot"] ∧
    cache_get (KStr "Apple_Black_rot") (cache w') = Some "Remove and destroy infected leaves." ∧
    uploads w' = uploads world0 ∧ rows w' = rows world0.
Proof.
  apply (get_treatment_miss_stores env_ok (JObj [("disease", JStr "Apple_Black_rot")])
           (JStr "Apple_Black_rot") (KStr "Apple_Black_rot")
           "Remove and destroy infected leaves." world0); reflexivity.
Defined.

(** X12. The cache keeps its shape: whatever the request and however it
    ends, a cache of at most 100 entries with distinct keys is again a
    cache of at most 100 entries with distinct keys. *)
Theorem get_treatment_keeps_cache_shape
    (env : Env) (request_json : result json) (w : World) :
  (List.length (cache w) ≤ maxsize)%nat →
  NoDup (cached_keys (cache w)) →
  (List.length (cache (snd (get_treatment env request_json w))) ≤ maxsize)%nat ∧
  NoDup (cached_keys (cache (snd (get_treatment env request_json w)))).
Proof.
  intros Hlen Hnd. split.
  - by apply cache_bounded_after.
  - by apply cache_keys_distinct_after.
Qed.

Lemma get_treatment_keeps_cache_shape_witness :
  (List.length (cache (snd (get_treatment env_ok (treatment_request "Corn_Common_rust")
                              world_full_cache))) ≤ maxsize)%nat ∧
  NoDup (cached_keys (cache (snd (get_treatment env_ok (treatment_request "Corn_Common_rust")
                                    world_full_cache)))).
Proof.
  apply get_treatment_keeps_cache_shape.
  - vm_compute. lia.
  - apply numbered_cache_nodup.
Defined.
